(** * To-do list with completion flags and due dates

    A shallow embedding of [todo_app_with_dates.py] and of the parts of the
    Python runtime it calls ([str.strip], [str.lower], [int],
    [datetime.strptime], [datetime.fromisoformat], [date.isoformat]),
    followed by the properties of the task store, the date normaliser and
    the filter engine.

    Text is modelled by [string]: a sequence of 8-bit characters, read as
    the code points 0..255.  Python integers are [Z]. *)

From Stdlib Require Import ZArith List String Ascii Bool Lia Permutation.
From Stdlib Require Import Numbers.DecimalString.
Import ListNotations.

Local Open Scope string_scope.
Local Open Scope Z_scope.

(* ------------------------------------------------------------------ *)
(** ** Python text primitives *)

Module PyStr.

(** Code point of a character. *)
Definition code (c : ascii) : Z := Z.of_N (N_of_ascii c).

(** [str.isspace] on one character: TAB..CR, FS..US, SPACE, NEL, NBSP. *)
Definition is_space (c : ascii) : bool :=
  let n := code c in
  ((9 <=? n) && (n <=? 13)) || ((28 <=? n) && (n <=? 32))
  || (n =? 133) || (n =? 160).

(** ASCII decimal digit, the only decimal digits below code point 256. *)
Definition is_digit (c : ascii) : bool :=
  let n := code c in (48 <=? n) && (n <=? 57).

Definition digit_val (c : ascii) : Z := code c - 48.

(** [str.lower] on one character: A..Z and the accented capitals
    U+00C0..U+00DE (without the multiplication sign U+00D7). *)
Definition lower_char (c : ascii) : ascii :=
  let n := code c in
  if ((65 <=? n) && (n <=? 90))
     || ((192 <=? n) && (n <=? 222) && negb (n =? 215))
  then ascii_of_N (Z.to_N (n + 32)) else c.

Fixpoint lower (s : string) : string :=
  match s with
  | EmptyString => EmptyString
  | String c s' => String (lower_char c) (lower s')
  end.

Fixpoint lstrip (s : string) : string :=
  match s with
  | EmptyString => EmptyString
  | String c s' => if is_space c then lstrip s' else s
  end.

(** Drops trailing white space: a character is kept when it is not white
    space or when something is kept after it. *)
Fixpoint rstrip (s : string) : string :=
  match s with
  | EmptyString => EmptyString
  | String c s' =>
      match rstrip s' with
      | EmptyString => if is_space c then EmptyString else String c EmptyString
      | r => String c r
      end
  end.

Definition strip (s : string) : string := rstrip (lstrip s).

(** Truth value of a string: [not s] holds for the empty string only. *)
Definition is_empty (s : string) : bool :=
  match s with EmptyString => true | _ => false end.

Fixpoint all_digits (s : string) : bool :=
  match s with
  | EmptyString => true
  | String c s' => is_digit c && all_digits s'
  end.

(** Value of a run of decimal digits, most significant first. *)
Fixpoint digits_val (acc : Z) (s : string) : Z :=
  match s with
  | EmptyString => acc
  | String c s' => digits_val (10 * acc + digit_val c) s'
  end.

(** Removes the underscores of an integer literal; [None] when one of them
    does not stand between two digits. *)
Fixpoint drop_underscores (prev_digit : bool) (s : string) : option string :=
  match s with
  | EmptyString => if prev_digit then Some EmptyString else None
  | String c s' =>
      if is_digit c then
        option_map (String c) (drop_underscores true s')
      else if (c =? "_")%char then
        if prev_digit then
          match s' with
          | EmptyString => None
          | String c' _ =>
              if is_digit c' then drop_underscores false s' else None
          end
        else None
      else None
  end.

(** The interpreter's default limit on the digits of a decimal literal
    ([sys.get_int_max_str_digits()]). *)
Definition int_max_str_digits : nat := 4300.

(** [int(s)] in base 10: surrounding white space, an optional sign, digits
    with single underscores between them.  [None] stands for
    [ValueError]. *)
Definition int (s : string) : option Z :=
  let body (neg : bool) (t : string) : option Z :=
    match drop_underscores false t with
    | Some ds =>
        if (Nat.leb (String.length ds) int_max_str_digits) then
          Some (if neg then - digits_val 0 ds else digits_val 0 ds)
        else None
    | None => None
    end in
  match strip s with
  | String "-" t => body true t
  | String "+" t => body false t
  | t => body false t
  end.

(** Decimal digits of a natural number. *)
Definition decimal (n : Z) : string :=
  NilZero.string_of_uint (N.to_uint (Z.to_N n)).

Fixpoint zeros (n : nat) : string :=
  match n with O => EmptyString | S n' => String "0" (zeros n') end.

(** ["%0<width>d" % n]: the sign counts towards the width. *)
Definition fmt_0d (width : nat) (n : Z) : string :=
  if n <? 0 then
    let d := decimal (- n) in
    String "-" (zeros (width - 1 - String.length d) ++ d)
  else
    let d := decimal n in
    zeros (width - String.length d) ++ d.

(** Slice [s[i:j]] for [0 <= i <= j]; it stops at the end of the text. *)
Definition slice (i j : nat) (s : string) : string := substring i (j - i) s.

(** [s[i:]]. *)
Fixpoint drop (i : nat) (s : string) : string :=
  match i, s with
  | O, _ => s
  | S i', String _ s' => drop i' s'
  | S _, EmptyString => EmptyString
  end.

(** [s.find(c) + 1]: one past the first position of [c], 0 when absent. *)
Fixpoint find1 (c : ascii) (s : string) : nat :=
  match s with
  | EmptyString => O
  | String c' s' =>
      if (c' =? c)%char then 1%nat
      else match find1 c s' with O => O | S k => S (S k) end
  end.

End PyStr.

(* ------------------------------------------------------------------ *)
(** ** Calendar arithmetic ([datetime.py]) *)

Module Calendar.

Definition MINYEAR : Z := 1.
Definition MAXYEAR : Z := 9999.

Definition _DAYS_IN_MONTH : list Z :=
  [-1; 31; 28; 31; 30; 31; 30; 31; 31; 30; 31; 30; 31].

Definition _DAYS_BEFORE_MONTH : list Z :=
  [-1; 0; 31; 59; 90; 120; 151; 181; 212; 243; 273; 304; 334].

Definition index (l : list Z) (i : Z) : Z := nth (Z.to_nat i) l (-1).

Definition _is_leap (year : Z) : bool :=
  (year mod 4 =? 0) && (negb (year mod 100 =? 0) || (year mod 400 =? 0)).

Definition _days_before_year (year : Z) : Z :=
  let y := year - 1 in
  y * 365 + y / 4 - y / 100 + y / 400.

Definition _days_in_month (year month : Z) : Z :=
  if (month =? 2) && _is_leap year then 29 else index _DAYS_IN_MONTH month.

Definition _days_before_month (year month : Z) : Z :=
  index _DAYS_BEFORE_MONTH month
  + (if (2 <? month) && _is_leap year then 1 else 0).

Definition _ymd2ord (year month day : Z) : Z :=
  _days_before_year year + _days_before_month year month + day.

Definition _DI400Y : Z := _days_before_year 401.
Definition _DI100Y : Z := _days_before_year 101.
Definition _DI4Y : Z := _days_before_year 5.

Definition _ord2ymd (n : Z) : Z * Z * Z :=
  let n := n - 1 in
  let n400 := n / _DI400Y in
  let n := n mod _DI400Y in
  let year := n400 * 400 + 1 in
  let n100 := n / _DI100Y in
  let n := n mod _DI100Y in
  let n4 := n / _DI4Y in
  let n := n mod _DI4Y in
  let n1 := n / 365 in
  let n := n mod 365 in
  let year := year + n100 * 100 + n4 * 4 + n1 in
  if (n1 =? 4) || (n100 =? 4) then (year - 1, 12, 31)
  else
    let leapyear := (n1 =? 3) && (negb (n4 =? 24) || (n100 =? 3)) in
    let month := Z.shiftr (n + 50) 5 in
    let preceding :=
      index _DAYS_BEFORE_MONTH month
      + (if (2 <? month) && leapyear then 1 else 0) in
    let '(month, preceding) :=
      if n <? preceding then
        (month - 1,
         preceding - (index _DAYS_IN_MONTH (month - 1)
                      + (if (month - 1 =? 2) && leapyear then 1 else 0)))
      else (month, preceding) in
    (year, month, n - preceding + 1).

Definition _isoweek1monday (year : Z) : Z :=
  let THURSDAY := 3 in
  let firstday := _ymd2ord year 1 1 in
  let firstweekday := (firstday + 6) mod 7 in
  let week1monday := firstday - firstweekday in
  if THURSDAY <? firstweekday then week1monday + 7 else week1monday.

(** [None] stands for [ValueError]. *)
Definition _isoweek_to_gregorian (year week day : Z) : option (Z * Z * Z) :=
  if negb ((MINYEAR <=? year) && (year <=? MAXYEAR)) then None
  else
    let out_of_range :=
      if negb ((0 <? week) && (week <? 53)) then
        if week =? 53 then
          let first_weekday := _ymd2ord year 1 1 mod 7 in
          negb ((first_weekday =? 4)
                || ((first_weekday =? 3) && _is_leap year))
        else true
      else false in
    if out_of_range then None
    else if negb ((0 <? day) && (day <? 8)) then None
    else
      let day_offset := (week - 1) * 7 + (day - 1) in
      let day_1 := _isoweek1monday year in
      Some (_ord2ymd (day_1 + day_offset)).

(** A [datetime.date]. *)
Record date : Type := mkDate { year : Z; month : Z; day : Z }.

(** [_check_date_fields]. *)
Definition _check_date_fields (y m d : Z) : bool :=
  (MINYEAR <=? y) && (y <=? MAXYEAR)
  && (1 <=? m) && (m <=? 12)
  && (1 <=? d) && (d <=? _days_in_month y m).

(** [_check_time_fields]. *)
Definition _check_time_fields (hh mm ss us : Z) : bool :=
  (0 <=? hh) && (hh <=? 23) && (0 <=? mm) && (mm <=? 59)
  && (0 <=? ss) && (ss <=? 59) && (0 <=? us) && (us <=? 999999).

(** The constructor [date(year, month, day)]; [None] is [ValueError]. *)
Definition date_new (y m d : Z) : option date :=
  if _check_date_fields y m d then Some (mkDate y m d) else None.

(** A [datetime.datetime]; the time zone it may carry is not recorded,
    nothing in the program reads it. *)
Record datetime : Type := mkDatetime {
  dt_date : date; hour : Z; minute : Z; second : Z; microsecond : Z }.

(** The constructor [datetime(year, month, day, hh, mm, ss, us)]. *)
Definition datetime_new (y m d hh mm ss us : Z) : option datetime :=
  if _check_date_fields y m d && _check_time_fields hh mm ss us
  then Some (mkDatetime (mkDate y m d) hh mm ss us) else None.

(** [date.isoformat]: ["%04d-%02d-%02d"]. *)
Definition date_isoformat (d : date) : string :=
  PyStr.fmt_0d 4 (year d) ++ "-" ++ PyStr.fmt_0d 2 (month d) ++ "-"
  ++ PyStr.fmt_0d 2 (day d).

(** [_format_time] with [timespec='auto']. *)
Definition _format_time (hh mm ss us : Z) : string :=
  let hms := PyStr.fmt_0d 2 hh ++ ":" ++ PyStr.fmt_0d 2 mm ++ ":"
             ++ PyStr.fmt_0d 2 ss in
  if us =? 0 then hms else hms ++ "." ++ PyStr.fmt_0d 6 us.

(** [datetime.isoformat] of a naive datetime. *)
Definition datetime_isoformat (t : datetime) : string :=
  date_isoformat (dt_date t) ++ "T"
  ++ _format_time (hour t) (minute t) (second t) (microsecond t).

(** Comparison of dates: the triples (year, month, day) in lexicographic
    order. *)
Definition date_eqb (a b : date) : bool :=
  (year a =? year b) && (month a =? month b) && (day a =? day b).

Definition date_ltb (a b : date) : bool :=
  (year a <? year b)
  || ((year a =? year b)
      && ((month a <? month b)
          || ((month a =? month b) && (day a <? day b)))).

End Calendar.

(* ------------------------------------------------------------------ *)
(** ** Regular expressions, as far as [_strptime.py] builds them

    Matching is the backtracking search of [re.match]: alternatives are
    tried from left to right, [+] is greedy, and the first way of matching
    the whole pattern is the answer.  The patterns are compiled with
    [re.IGNORECASE]. *)

Module Re.

Inductive charset : Type :=
| CLit (c : ascii)            (* one character, in either case *)
| CDigit                      (* \d *)
| CSpace                      (* \s *)
| CRange (lo hi : ascii).     (* [lo-hi] *)

Inductive regex : Type :=
| Eps
| Char (cs : charset)
| Plus (cs : charset)
| Cat (r1 r2 : regex)
| Alt (r1 r2 : regex)
| Group (name : string) (r : regex).

Definition member (cs : charset) (c : ascii) : bool :=
  match cs with
  | CLit x => (PyStr.lower_char c =? PyStr.lower_char x)%char
  | CDigit => PyStr.is_digit c
  | CSpace => PyStr.is_space c
  | CRange lo hi =>
      (PyStr.code lo <=? PyStr.code c) && (PyStr.code c <=? PyStr.code hi)
  end.

(** The characters of [s] that precede its suffix [rest]. *)
Definition consumed (s rest : string) : string :=
  substring 0 (String.length s - String.length rest) s.

Definition groups : Type := list (string * string).

Section Search.
Context {A : Type}.

Fixpoint plus_run (cs : charset) (s : string) (k : string -> option A)
  : option A :=
  match s with
  | EmptyString => None
  | String c s' =>
      if member cs c then
        match plus_run cs s' k with
        | Some a => Some a
        | None => k s'
        end
      else None
  end.

Fixpoint run (r : regex) (s : string) (g : groups)
         (k : string -> groups -> option A) : option A :=
  match r with
  | Eps => k s g
  | Char cs =>
      match s with
      | String c s' => if member cs c then k s' g else None
      | EmptyString => None
      end
  | Plus cs => plus_run cs s (fun s' => k s' g)
  | Cat r1 r2 => run r1 s g (fun s' g' => run r2 s' g' k)
  | Alt r1 r2 =>
      match run r1 s g k with
      | Some a => Some a
      | None => run r2 s g k
      end
  | Group name r1 =>
      run r1 s g (fun s' g' => k s' (g' ++ [(name, consumed s s')])%list)
  end.
End Search.

(** [re.match]: the unread rest of the text (so [found.end()] is the
    length of the text minus the length of the rest) and the named groups
    in the order of the pattern. *)
Definition re_match (r : regex) (s : string) : option (string * groups) :=
  run r s [] (fun rest g => Some (rest, g)).

(** A word, character by character ([re.escape] of letters). *)
Fixpoint word (w : string) : regex :=
  match w with
  | EmptyString => Eps
  | String c w' => Cat (Char (CLit c)) (word w')
  end.

Fixpoint alternatives (rs : list regex) : regex :=
  match rs with
  | [] => Eps
  | [r] => r
  | r :: rs' => Alt r (alternatives rs')
  end.

End Re.

(* ------------------------------------------------------------------ *)
(** ** [datetime.strptime] ([_strptime.py], C locale) *)

Module Strptime.
Import Re Calendar.

Definition a_month : list string :=
  [""; "jan"; "feb"; "mar"; "apr"; "may"; "jun";
   "jul"; "aug"; "sep"; "oct"; "nov"; "dec"].

Definition f_month : list string :=
  [""; "january"; "february"; "march"; "april"; "may"; "june"; "july";
   "august"; "september"; "october"; "november"; "december"].

(** [sorted(to_convert, key=len, reverse=True)]: longest first, words of
    one length in their order of the list. *)
Fixpoint insert_by_len (w : string) (sorted : list string) : list string :=
  match sorted with
  | [] => [w]
  | x :: rest =>
      if Nat.ltb (String.length x) (String.length w) then w :: sorted
      else x :: insert_by_len w rest
  end.

Definition sorted_by_len (ws : list string) : list string :=
  fold_left (fun acc w => insert_by_len w acc) ws [].

(** [__seqToRE]. *)
Definition seqToRE (to_convert : list string) (directive : string) : regex :=
  Group directive (alternatives (map word (sorted_by_len to_convert))).

Definition rng (lo hi : ascii) : regex := Char (CRange lo hi).
Definition lit (c : ascii) : regex := Char (CLit c).
Definition digit : regex := Char CDigit.

(** The table of [TimeRE], for the directives the program's formats use;
    [None] is the [KeyError] of a directive outside the table. *)
Definition directive (d : ascii) : option regex :=
  if (d =? "d")%char then
    (* 3[0-1]|[1-2]\d|0[1-9]|[1-9]| [1-9] *)
    Some (Group "d" (alternatives
            [Cat (lit "3") (rng "0" "1"); Cat (rng "1" "2") digit;
             Cat (lit "0") (rng "1" "9"); rng "1" "9";
             Cat (lit " ") (rng "1" "9")]))
  else if (d =? "m")%char then
    (* 1[0-2]|0[1-9]|[1-9] *)
    Some (Group "m" (alternatives
            [Cat (lit "1") (rng "0" "2"); Cat (lit "0") (rng "1" "9");
             rng "1" "9"]))
  else if (d =? "Y")%char then
    (* \d\d\d\d *)
    Some (Group "Y" (Cat digit (Cat digit (Cat digit digit))))
  else if (d =? "B")%char then Some (seqToRE (tl f_month) "B")
  else if (d =? "b")%char then Some (seqToRE (tl a_month) "b")
  else None.

(** [TimeRE.pattern]: a run of white space in the format becomes [\s+], a
    directive its entry of the table, any other character itself.
    [in_ws] says that the previous character of the format was white
    space. *)
Fixpoint pattern (in_ws : bool) (format : string) : option regex :=
  match format with
  | EmptyString => Some Eps
  | String c rest =>
      if PyStr.is_space c then
        if in_ws then pattern true rest
        else option_map (Cat (Plus CSpace)) (pattern true rest)
      else if (c =? "%")%char then
        match rest with
        | EmptyString => None
        | String d rest' =>
            match directive d, pattern false rest' with
            | Some r, Some p => Some (Cat r p)
            | _, _ => None
            end
        end
      else option_map (Cat (lit c)) (pattern false rest)
  end.

Definition compile (format : string) : option regex := pattern false format.

(** Position of a word in a list ([list.index]). *)
Fixpoint index_of (w : string) (l : list string) : option Z :=
  match l with
  | [] => None
  | x :: rest =>
      if (x =? w)%string then Some 0
      else option_map Z.succ (index_of w rest)
  end.

(** The loop over [found_dict] of [_strptime], for the keys these patterns
    can capture: the fields found so far are (year, month, day). *)
Definition read_group (acc : option (option Z * Z * Z)) (kv : string * string)
  : option (option Z * Z * Z) :=
  match acc with
  | None => None
  | Some (year, month, day) =>
      let '(group_key, value) := kv in
      if (group_key =? "Y")%string then
        option_map (fun y => (Some y, month, day)) (PyStr.int value)
      else if (group_key =? "m")%string then
        option_map (fun m => (year, m, day)) (PyStr.int value)
      else if (group_key =? "B")%string then
        option_map (fun m => (year, m, day))
                   (index_of (PyStr.lower value) f_month)
      else if (group_key =? "b")%string then
        option_map (fun m => (year, m, day))
                   (index_of (PyStr.lower value) a_month)
      else if (group_key =? "d")%string then
        option_map (fun d => (year, month, d)) (PyStr.int value)
      else acc
  end.

(** [datetime.strptime(data_string, format)]; [None] is [ValueError]. *)
Definition strptime (data_string format : string) : option datetime :=
  match compile format with
  | None => None
  | Some format_regex =>
      match re_match format_regex data_string with
      | None => None
      | Some (rest, found_dict) =>
          if negb (PyStr.is_empty rest) then None
          else
            match fold_left read_group found_dict (Some (None, 1, 1)) with
            | None => None
            | Some (year, month, day) =>
                let year :=
                  match year with
                  | Some y => y
                  | None =>
                      if (month =? 2) && (day =? 29) then 1904 else 1900
                  end in
                datetime_new year month day 0 0 0 0
            end
      end
  end.

End Strptime.

(* ------------------------------------------------------------------ *)
(** ** [datetime.fromisoformat] (Python 3.11)

    The interpreter runs the accelerated [datetime] module
    ([_datetimemodule.c]), which reads the UTF-8 encoding of the text as a
    NUL-terminated buffer.  A pointer into the buffer is modelled by the
    text from that position on; [None] stands for [ValueError]. *)

Module IsoFormat.
Import Calendar.

(** UTF-8 encoding of the code points 0..255. *)
Fixpoint utf8 (s : string) : string :=
  match s with
  | EmptyString => EmptyString
  | String c s' =>
      let n := PyStr.code c in
      if n <? 128 then String c (utf8 s')
      else String (ascii_of_N (Z.to_N (192 + n / 64)))
             (String (ascii_of_N (Z.to_N (128 + n mod 64))) (utf8 s'))
  end.

(** [*p]: the byte under the pointer, NUL at the end of the buffer. *)
Definition peek (p : string) : ascii :=
  match p with String c _ => c | EmptyString => zero end.

(** [p[i]]. *)
Definition byte_at (i : nat) (p : string) : ascii := peek (PyStr.drop i p).

Definition byte_is c (x : ascii) : bool := (x =? c)%char.

(** [parse_digits]: [n] digits under the pointer: their value and the
    pointer behind them. *)
Fixpoint parse_digits (n : nat) (acc : Z) (p : string) : option (Z * string) :=
  match n with
  | O => Some (acc, p)
  | S n' =>
      match p with
      | String c p' =>
          if PyStr.is_digit c
          then parse_digits n' (10 * acc + PyStr.digit_val c) p'
          else None
      | EmptyString => None
      end
  end.

(** The loop [for (; idx < len; ++idx) if (!is_digit(dtstr[idx])) break],
    entered with [p = dtstr + idx]. *)
Fixpoint skip_digits (idx : nat) (p : string) : nat :=
  match p with
  | String c p' => if PyStr.is_digit c then skip_digits (S idx) p' else idx
  | EmptyString => idx
  end.

(** [_find_isoformat_datetime_separator]; [None] is its result -1. *)
Definition _find_isoformat_datetime_separator (dtstr : string) (len : nat)
  : option nat :=
  if Nat.eqb len 7 then Some 7%nat
  else if byte_is "-" (byte_at 4 dtstr) then
    if byte_is "W" (byte_at 5 dtstr) then
      if Nat.ltb len 8 then None
      else if Nat.ltb 8 len && byte_is "-" (byte_at 8 dtstr) then
        if Nat.eqb len 9 then None
        else if Nat.ltb 10 len && PyStr.is_digit (byte_at 10 dtstr)
        then Some 8%nat
        else Some 10%nat
      else Some 8%nat
    else Some 10%nat
  else if byte_is "W" (byte_at 4 dtstr) then
    let idx := skip_digits 7 (PyStr.drop 7 dtstr) in
    if Nat.ltb idx 9 then Some idx
    else if Nat.even idx then Some 7%nat
    else Some 8%nat
  else Some 8%nat.

(** [iso_to_ymd].  For the year 0 the accelerated module computes an
    ordinal that is never positive, which the constructor then refuses;
    the reference code in [datetime.py] refuses the year at once. *)
Definition iso_to_ymd (iso_year iso_week iso_day : Z) : option (Z * Z * Z) :=
  _isoweek_to_gregorian iso_year iso_week iso_day.

(** [parse_isoformat_date]: [len] is the separator's position. *)
Definition parse_isoformat_date (dtstr : string) (len : nat)
  : option (Z * Z * Z) :=
  match parse_digits 4 0 dtstr with
  | None => None
  | Some (year, p) =>
      let uses_separator := byte_is "-" (peek p) in
      let p := if uses_separator then PyStr.drop 1 p else p in
      if byte_is "W" (peek p) then
        match parse_digits 2 0 (PyStr.drop 1 p) with
        | None => None
        | Some (iso_week, p) =>
            (* p - dtstr *)
            let read := if uses_separator then 8%nat else 7%nat in
            if Nat.ltb read len then
              if uses_separator && negb (byte_is "-" (peek p)) then None
              else
                let p := if uses_separator then PyStr.drop 1 p else p in
                match parse_digits 1 0 p with
                | None => None
                | Some (iso_day, _) => iso_to_ymd year iso_week iso_day
                end
            else iso_to_ymd year iso_week 1
        end
      else
        match parse_digits 2 0 p with
        | None => None
        | Some (month, p) =>
            if uses_separator && negb (byte_is "-" (peek p)) then None
            else
              let p := if uses_separator then PyStr.drop 1 p else p in
              match parse_digits 2 0 p with
              | None => None
              | Some (day, _) => Some (year, month, day)
              end
        end
  end.

(** How the loop over hours, minutes and seconds of [parse_hh_mm_ss_ff]
    ends. *)
Inductive hms_exit : Type :=
| Returned (rv : bool)               (* [return c != '\0'] *)
| Fraction (p : string) (pos : nat)  (* left the loop at [p] *)
| Malformed.                         (* a negative return code *)

(** The loop [for (i = 0; i < 3; ++i)]: [todo] components are still to be
    read, [pos] is [p - tstr], [n] is [tstr_end - tstr].  The result lists
    the components read. *)
Fixpoint hms_loop (todo : nat) (first : bool) (has_separator : bool)
         (p : string) (pos n : nat) : list Z * hms_exit :=
  match todo with
  | O => ([], Fraction p pos)
  | S todo' =>
      match parse_digits 2 0 p with
      | None => ([], Malformed)
      | Some (v, p1) =>
          let c := peek p1 in
          let has_separator := if first then byte_is ":" c else has_separator in
          let stop (e : hms_exit) := ([v], e) in
          let continue (p' : string) (pos' : nat) :=
            let '(vs, e) := hms_loop todo' false has_separator p' pos' n in
            (v :: vs, e) in
          if Nat.leb n (pos + 3) then stop (Returned (negb (byte_is zero c)))
          else if has_separator && byte_is ":" c
          then continue (PyStr.drop 1 p1) (pos + 3)%nat
          else if byte_is "." c || byte_is "," c
          then stop (Fraction (PyStr.drop 1 p1) (pos + 3)%nat)
          else if negb has_separator then continue p1 (pos + 2)%nat
          else stop Malformed
      end
  end.

Definition correction : list Z := [100000; 10000; 1000; 100; 10].

Fixpoint skip_truncated (p : string) : string :=
  match p with
  | String c p' => if PyStr.is_digit c then skip_truncated p' else p
  | EmptyString => p
  end.

(** [parse_hh_mm_ss_ff (tstr, tstr + n)]: the fields and the return code 0
    or 1 (1: something follows them); [None] is a negative code. *)
Definition parse_hh_mm_ss_ff (tstr : string) (n : nat)
  : option (Z * Z * Z * Z * bool) :=
  let '(vals, e) := hms_loop 3 true true tstr 0 n in
  let hour := nth 0 vals 0 in
  let minute := nth 1 vals 0 in
  let second := nth 2 vals 0 in
  match e with
  | Malformed => None
  | Returned rv => Some (hour, minute, second, 0, rv)
  | Fraction p pos =>
      let len_remains := (n - pos)%nat in
      let to_parse := Nat.min 6 len_remains in
      match parse_digits to_parse 0 p with
      | None => None
      | Some (us, p) =>
          let us :=
            if Nat.ltb to_parse 6 then us * nth (to_parse - 1) correction 0
            else us in
          Some (hour, minute, second, us,
                negb (byte_is zero (peek (skip_truncated p))))
      end
  end.

(** The scan [do ... while (++tzinfo_pos < p_end)] for the first of
    [Z], [+], [-]: the position where it stops. *)
Fixpoint find_tz (j : nat) (p : string) : nat :=
  match p with
  | EmptyString => Nat.max j 1
  | String c p' =>
      if byte_is "Z" c || byte_is "+" c || byte_is "-" c then j else find_tz (S j) p'
  end.

Definition tz_in_range (tzoffset tz_useconds : Z) : bool :=
  let us := tzoffset * 1000000 + tz_useconds in
  (tzoffset =? 0) || ((- 86400000000 <? us) && (us <? 86400000000)).

(** [parse_isoformat_time] followed by [tzinfo_from_isoformat_results]:
    the time fields; the time zone is checked, then forgotten. *)
Definition parse_isoformat_time (dtstr : string) (dtlen : nat)
  : option (Z * Z * Z * Z) :=
  let tzinfo_pos := find_tz 0 dtstr in
  match parse_hh_mm_ss_ff dtstr tzinfo_pos with
  | None => None
  | Some (hh, mm, ss, us, rv) =>
      if Nat.eqb tzinfo_pos dtlen then
        if rv then None else Some (hh, mm, ss, us)
      else if byte_is "Z" (byte_at tzinfo_pos dtstr) then
        if byte_is zero (byte_at (S tzinfo_pos) dtstr) then Some (hh, mm, ss, us)
        else None
      else
        let tzsign := if byte_is "-" (byte_at tzinfo_pos dtstr) then -1 else 1 in
        match parse_hh_mm_ss_ff (PyStr.drop (S tzinfo_pos) dtstr)
                                (dtlen - S tzinfo_pos) with
        | None => None
        | Some (tzhour, tzminute, tzsecond, tzus, rv) =>
            if rv then None
            else
              let tzoffset :=
                tzsign * (tzhour * 3600 + tzminute * 60 + tzsecond) in
              if tz_in_range tzoffset (tzsign * tzus)
              then Some (hh, mm, ss, us) else None
        end
  end.

(** Bytes of the character that starts with the byte [c]. *)
Definition char_width (c : ascii) : nat :=
  let b := PyStr.code c in
  if b <? 128 then 1%nat
  else if b / 16 =? 14 then 3%nat
  else if b / 16 =? 15 then 4%nat
  else 2%nat.

(** [datetime.fromisoformat]. *)
Definition fromisoformat (date_string : string) : option datetime :=
  let dt_ptr := utf8 date_string in
  let len := String.length dt_ptr in
  if Nat.ltb len 7 then None
  else
    match _find_isoformat_datetime_separator dt_ptr len with
    | None => None
    | Some separator_location =>
        match parse_isoformat_date dt_ptr separator_location with
        | None => None
        | Some (y, m, d) =>
            if Nat.ltb separator_location len then
              let p := PyStr.drop separator_location dt_ptr in
              let p := PyStr.drop (char_width (peek p)) p in
              match parse_isoformat_time p (String.length p) with
              | None => None
              | Some (hh, mm, ss, us) => datetime_new y m d hh mm ss us
              end
            else datetime_new y m d 0 0 0 0
        end
    end.

End IsoFormat.

(* ------------------------------------------------------------------ *)
(** ** The program: [todo_app_with_dates.py] *)

Module Todo.
Import Calendar.

(** A task: the dict with the keys [id], [title], [due_date], [completed]
    and [created_at] that [add_task] builds and the module's docstring
    describes.  [task.get(key)] and [task[key]] are the projections. *)
Record Task : Type := mkTask {
  id : Z;
  title : string;
  due_date : string;       (* ISO string like '2025-11-12' or empty *)
  completed : bool;
  created_at : string }.

(** Equality of two tasks, as [==] on the dicts: key by key. *)
Definition Task_eqb (a b : Task) : bool :=
  (id a =? id b) && (title a =? title b)%string
  && (due_date a =? due_date b)%string
  && Bool.eqb (completed a) (completed b)
  && (created_at a =? created_at b)%string.

Definition set_title (v : string) (t : Task) : Task :=
  mkTask (id t) v (due_date t) (completed t) (created_at t).
Definition set_due_date (v : string) (t : Task) : Task :=
  mkTask (id t) (title t) v (completed t) (created_at t).
Definition set_completed (v : bool) (t : Task) : Task :=
  mkTask (id t) (title t) (due_date t) v (created_at t).

(** *** Effects

    The functions of the program read lines from the terminal, write
    messages to it, read the clock, rewrite the data file and update the
    list [tasks] in place.  A [World] holds what they act on. *)

(** The questions [input] asks. *)
Inductive Prompt : Type :=
| AskTitle | AskDueDate | AskToggleId | AskDeleteId | AskEditId
| AskNewTitle | AskNewDueDate.

(** What is written to the terminal, without the wording. *)
Inductive Message : Type :=
| Asked (p : Prompt)
| TitleEmpty                              (* Task title cannot be empty. *)
| TaskAdded (task_id : Z) (t : string)    (* Task added: (id) title *)
| NoTasksFound                            (* No tasks found. *)
| NoTasksMatch                            (* No tasks match that filter. *)
| TasksHeader                             (* Tasks: *)
| TaskLine (task_id : Z) (done : bool) (t due : string)
| BlankLine
| InvalidId                               (* Please enter a valid numeric ID. *)
| TaskNotFound                            (* Task not found. *)
| Toggled (task_id : Z) (done : bool)     (* Task id marked as ... *)
| Deleted (task_id : Z) (t : string)      (* Deleted task id: title *)
| CurrentTitle (t : string)
| CurrentDueDate (due : string)
| ParseFailed                  (* Couldn't parse that date. Keeping ... *)
| Updated (task_id : Z).                  (* Task id updated. *)

Inductive Event : Type :=
| Printed (m : Message)
| Saved (content : list Task).   (* the data file rewritten in full *)

Record World : Type := mkWorld {
  tasks : list Task;       (* the list object passed to every function *)
  stdin : list string;     (* the lines still to be typed *)
  clock : datetime;        (* what [datetime.now()] returns *)
  events : list Event }.   (* what happened so far, the latest first *)

Inductive Exn : Type := EOFError.

Inductive Result (A : Type) : Type :=
| Ok (a : A) (w : World)
| Raised (e : Exn) (w : World).
Arguments Ok {A} a w.
Arguments Raised {A} e w.

Definition M (A : Type) : Type := World -> Result A.

Definition ret {A} (a : A) : M A := fun w => Ok a w.

Definition bind {A B} (m : M A) (f : A -> M B) : M B :=
  fun w => match m w with
           | Ok a w' => f a w'
           | Raised e w' => Raised e w'
           end.

Notation "x <- m ;; k" := (bind m (fun x => k))
  (at level 61, m at next level, right associativity).
Notation "m ;; k" := (bind m (fun _ => k))
  (at level 61, right associativity).

Definition final {A} (r : Result A) : World :=
  match r with Ok _ w => w | Raised _ w => w end.

Definition log (e : Event) (w : World) : World :=
  mkWorld (tasks w) (stdin w) (clock w) (e :: events w).

Definition print (m : Message) : M unit := fun w => Ok tt (log (Printed m) w).

(** [input(prompt)]: the prompt is written, then a line is read;
    [EOFError] when no line is left. *)
Definition input (p : Prompt) : M string :=
  fun w =>
    let w := log (Printed (Asked p)) w in
    match stdin w with
    | line :: rest => Ok line (mkWorld (tasks w) rest (clock w) (events w))
    | [] => Raised EOFError w
    end.

Definition get_tasks : M (list Task) := fun w => Ok (tasks w) w.

Definition set_tasks (l : list Task) : M unit :=
  fun w => Ok tt (mkWorld l (stdin w) (clock w) (events w)).

Definition datetime_now : M datetime := fun w => Ok (clock w) w.

(** *** Helper functions *)

(** [save_tasks]: the data file is overwritten with the whole list. *)
Definition save_tasks : M unit :=
  fun w => Ok tt (log (Saved (tasks w)) w).

(** [max] of a non-empty list. *)
Definition py_max (x : Z) (xs : list Z) : Z := fold_left Z.max xs x.

(** [generate_id]: [ids] is empty exactly when [tasks] is. *)
Definition generate_id (tasks : list Task) : Z :=
  let ids := map id tasks in
  match ids with
  | [] => 1
  | i :: ids' => py_max i ids' + 1
  end.

Definition formats : list string :=
  ["%Y-%m-%d"; "%d/%m/%Y"; "%d-%m-%Y"; "%b %d %Y"; "%B %d %Y";
   "%d %b %Y"; "%d %B %Y"].

(** The loop [for fmt in formats] of [parse_date], followed by the last
    resort. *)
Fixpoint try_formats (date_str : string) (fmts : list string) : string :=
  match fmts with
  | fmt :: rest =>
      match Strptime.strptime date_str fmt with
      | Some dt => date_isoformat (dt_date dt)
      | None => try_formats date_str rest
      end
  | [] =>
      match IsoFormat.fromisoformat date_str with
      | Some dt => date_isoformat (dt_date dt)
      | None => ""
      end
  end.

Definition parse_date (date_str : string) : string :=
  if PyStr.is_empty date_str then ""
  else try_formats (PyStr.strip date_str) formats.

(** [find_task_by_id]: the dict returned is named by its position in the
    list; updating it updates the list. *)
Fixpoint find_task_by_id (tasks : list Task) (task_id : Z) : option nat :=
  match tasks with
  | [] => None
  | task :: rest =>
      if id task =? task_id then Some O
      else option_map S (find_task_by_id rest task_id)
  end.

(** Assignment to a key of the dict at position [ref]. *)
Fixpoint update_at (ref : nat) (f : Task -> Task) (l : list Task) : list Task :=
  match l, ref with
  | [], _ => []
  | t :: rest, O => f t :: rest
  | t :: rest, S ref' => t :: update_at ref' f rest
  end.

Definition assign (ref : nat) (f : Task -> Task) : M unit :=
  tasks <- get_tasks ;; set_tasks (update_at ref f tasks).

(** [list.remove(x)]: the first element equal to [x] goes. *)
Fixpoint list_remove (x : Task) (l : list Task) : list Task :=
  match l with
  | [] => []
  | t :: rest => if Task_eqb t x then rest else t :: list_remove x rest
  end.

(** *** Operations *)

Definition add_task : M unit :=
  title <- input AskTitle ;;
  let title := PyStr.strip title in
  if PyStr.is_empty title then print TitleEmpty
  else
    due_input <- input AskDueDate ;;
    let due_date := parse_date due_input in
    tasks <- get_tasks ;;
    now <- datetime_now ;;
    let new_task :=
      {| id := generate_id tasks;
         title := title;
         due_date := due_date;
         completed := false;
         created_at := datetime_isoformat now |} in
    set_tasks (tasks ++ [new_task])%list ;;
    save_tasks ;;
    print (TaskAdded (id new_task) (Todo.title new_task)).

(** [datetime.fromisoformat(task['due_date']).date()] under
    [try ... except Exception: pass]. *)
Definition due_day (task : Task) : option date :=
  option_map dt_date (IsoFormat.fromisoformat (due_date task)).

(** The chain of tests in the body of [for task in tasks]: is the task
    appended to [filtered]? *)
Definition selected (filter_by : option string) (now : date) (task : Task)
  : bool :=
  let filter_is (kind : string) :=
    match filter_by with Some f => (f =? kind)%string | None => false end in
  if match filter_by with None => true | Some f => (f =? "all")%string end
  then true
  else if filter_is "completed" && completed task then true
  else if filter_is "incomplete" && negb (completed task) then true
  else if filter_is "due_today" then
    if negb (PyStr.is_empty (due_date task)) then
      match due_day task with
      | Some d => date_eqb d now
      | None => false
      end
    else false
  else if filter_is "overdue" then
    if negb (PyStr.is_empty (due_date task)) && negb (completed task) then
      match due_day task with
      | Some d => date_ltb d now
      | None => false
      end
    else false
  else false.

(** The list [filtered] after the loop. *)
Definition filtered (tasks : list Task) (filter_by : option string)
           (now : date) : list Task :=
  fold_left
    (fun filtered task =>
       if selected filter_by now task then (filtered ++ [task])%list
       else filtered)
    tasks [].

Fixpoint print_all (ms : list Message) : M unit :=
  match ms with
  | [] => ret tt
  | m :: rest => print m ;; print_all rest
  end.

(** [task.get('due_date') or "No due date"]. *)
Definition or_no_due_date (due : string) : string :=
  if PyStr.is_empty due then "No due date" else due.

Definition task_line (task : Task) : Message :=
  TaskLine (id task) (completed task) (title task)
           (or_no_due_date (due_date task)).

Definition show_tasks (filter_by : option string) : M unit :=
  tasks <- get_tasks ;;
  match tasks with
  | [] => print NoTasksFound
  | _ =>
      now <- datetime_now ;;
      let now := dt_date now in
      match filtered tasks filter_by now with
      | [] => print NoTasksMatch
      | filtered =>
          print TasksHeader ;;
          print_all (map task_line filtered) ;;
          print BlankLine
      end
  end.

Definition mark_complete : M unit :=
  line <- input AskToggleId ;;
  match PyStr.int line with
  | None => print InvalidId
  | Some task_id =>
      tasks <- get_tasks ;;
      match find_task_by_id tasks task_id with
      | None => print TaskNotFound
      | Some task =>
          assign task (fun t => set_completed (negb (completed t)) t) ;;
          save_tasks ;;
          tasks <- get_tasks ;;
          match nth_error tasks task with
          | Some t => print (Toggled task_id (completed t))
          | None => ret tt
          end
      end
  end.

Definition delete_task : M unit :=
  line <- input AskDeleteId ;;
  match PyStr.int line with
  | None => print InvalidId
  | Some task_id =>
      tasks <- get_tasks ;;
      match find_task_by_id tasks task_id with
      | None => print TaskNotFound
      | Some task =>
          match nth_error tasks task with
          | Some t =>
              set_tasks (list_remove t tasks) ;;
              save_tasks ;;
              print (Deleted task_id (title t))
          | None => ret tt
          end
      end
  end.

Definition edit_task : M unit :=
  line <- input AskEditId ;;
  match PyStr.int line with
  | None => print InvalidId
  | Some task_id =>
      tasks <- get_tasks ;;
      match find_task_by_id tasks task_id with
      | None => print TaskNotFound
      | Some task =>
          let current (f : Task -> string) : M string :=
            tasks <- get_tasks ;;
            ret (match nth_error tasks task with
                 | Some t => f t
                 | None => ""
                 end) in
          t <- current title ;;
          print (CurrentTitle t) ;;
          new_title <- input AskNewTitle ;;
          let new_title := PyStr.strip new_title in
          (if negb (PyStr.is_empty new_title)
           then assign task (set_title new_title)
           else ret tt) ;;
          d <- current due_date ;;
          print (CurrentDueDate (or_no_due_date d)) ;;
          new_due <- input AskNewDueDate ;;
          let new_due := PyStr.strip new_due in
          (if (PyStr.lower new_due =? "clear")%string
           then assign task (set_due_date "")
           else if negb (PyStr.is_empty new_due) then
             let parsed := parse_date new_due in
             if negb (PyStr.is_empty parsed)
             then assign task (set_due_date parsed)
             else print ParseFailed
           else ret tt) ;;
          save_tasks ;;
          print (Updated task_id)
      end
  end.

(** *** The words of the specification

    The predicates of the filter table and the canonical form of a due
    date, written from the specification, to compare the code with. *)

(** A date in the form YYYY-MM-DD: four, two and two digits between
    hyphens that name a day of the calendar. *)
Definition canonical (s : string) : bool :=
  match s with
  | String y1 (String y2 (String y3 (String y4 (String sep1
      (String m1 (String m2 (String sep2
        (String d1 (String d2 EmptyString))))))))) =>
      let yyyy := String y1 (String y2 (String y3 (String y4 ""))) in
      let mm := String m1 (String m2 "") in
      let dd := String d1 (String d2 "") in
      PyStr.all_digits yyyy && PyStr.all_digits mm && PyStr.all_digits dd
      && (sep1 =? "-")%char && (sep2 =? "-")%char
      && _check_date_fields (PyStr.digits_val 0 yyyy) (PyStr.digits_val 0 mm)
                            (PyStr.digits_val 0 dd)
  | _ => false
  end.

(** The due date of a task, if it has one: absent when the field is empty
    or does not denote a date. *)
Definition task_due (t : Task) : option date :=
  if PyStr.is_empty (due_date t) then None else due_day t.

Definition is_completed (t : Task) : bool := completed t.

Definition is_incomplete (t : Task) : bool := negb (completed t).

(** has a due date AND due date == today *)
Definition is_due_today (today : date) (t : Task) : bool :=
  match task_due t with
  | Some d => date_eqb d today
  | None => false
  end.

(** has a due date AND completed == false AND due date < today *)
Definition is_overdue (today : date) (t : Task) : bool :=
  match task_due t with
  | Some d => negb (completed t) && date_ltb d today
  | None => false
  end.

(** The invariant of the store on due dates. *)
Definition due_dates_canonical (l : list Task) : Prop :=
  Forall (fun t => due_date t = "" \/ canonical (due_date t) = true) l.

(** A date of the calendar. *)
Definition valid_date (d : date) : Prop :=
  _check_date_fields (year d) (month d) (day d) = true.

End Todo.

(* ------------------------------------------------------------------ *)
(** ** The menu loop: [main]

    [main] prints the menu, reads a choice and calls the operation chosen,
    until the choice is 0 or the input ends.  What [main] itself writes to
    the terminal is kept beside the world of the operations, each message
    with the number of events the world had when it was written, which
    places it among them.  The list [tasks] of the world, when the loop is
    entered, is what [load_tasks] returned. *)

Module Menu.
Import Todo.

(** What [main] writes, without the wording: the title of the program, the
    eleven lines of the menu, the prompt for the choice, the farewell and
    the complaint about a choice that is not in the menu. *)
Inductive Shown : Type :=
| Banner | MenuText | AskedChoice | Goodbye | InvalidChoice.

Record Session : Type := mkSession {
  world : World;
  shown : list (nat * Shown) }.   (* the latest first *)

Definition show (m : Shown) (s : Session) : Session :=
  mkSession (world s) ((List.length (events (world s)), m) :: shown s).

(** How the loop ends: [break] after the choice 0, or an exception that
    nothing catches. *)
Inductive Outcome : Type :=
| Exited (s : Session)
| Crashed (e : Exn) (s : Session).

Definition session_of (o : Outcome) : Session :=
  match o with Exited s => s | Crashed _ s => s end.

(** The chain [if choice == '1': ... elif choice == '9': ...] for the
    choices that call an operation. *)
Definition operation (choice : string) : option (M unit) :=
  if (choice =? "1")%string then Some (show_tasks (Some "all"))
  else if (choice =? "2")%string then Some (show_tasks (Some "incomplete"))
  else if (choice =? "3")%string then Some (show_tasks (Some "completed"))
  else if (choice =? "4")%string then Some (show_tasks (Some "due_today"))
  else if (choice =? "5")%string then Some (show_tasks (Some "overdue"))
  else if (choice =? "6")%string then Some add_task
  else if (choice =? "7")%string then Some edit_task
  else if (choice =? "8")%string then Some mark_complete
  else if (choice =? "9")%string then Some delete_task
  else None.

(** The loop [while True] of [main]; [fuel] bounds the number of turns, and
    [None] says that it did not suffice. *)
Fixpoint main_loop (fuel : nat) (s : Session) : option Outcome :=
  match fuel with
  | O => None
  | S fuel' =>
      let s := show AskedChoice (show MenuText s) in
      let w := world s in
      match stdin w with
      | [] => Some (Crashed EOFError s)
      | line :: rest =>
          let s := mkSession (mkWorld (tasks w) rest (clock w) (events w))
                             (shown s) in
          let choice := PyStr.strip line in
          match operation choice with
          | Some op =>
              match op (world s) with
              | Ok _ w' => main_loop fuel' (mkSession w' (shown s))
              | Raised e w' => Some (Crashed e (mkSession w' (shown s)))
              end
          | None =>
              if (choice =? "0")%string then Some (Exited (show Goodbye s))
              else main_loop fuel' (show InvalidChoice s)
          end
      end
  end.

(** [main], after [tasks = load_tasks()]. *)
Definition main (fuel : nat) (w : World) : option Outcome :=
  main_loop fuel (show Banner (mkSession w [])).

End Menu.

(* ------------------------------------------------------------------ *)
(** ** Auxiliary definitions for the proofs *)

(** The character of a decimal digit. *)
Definition digit_char (k : Z) : ascii := ascii_of_N (Z.to_N (48 + k)).

(** The four digits ["%04d"] writes for a year, the two ["%02d"] writes for
    a month or a day. *)
Definition four_digits (y : Z) : string :=
  String (digit_char (y / 1000)) (String (digit_char (y / 100 mod 10))
    (String (digit_char (y / 10 mod 10)) (String (digit_char (y mod 10)) ""))).

Definition two_digits (m : Z) : string :=
  String (digit_char (m / 10)) (String (digit_char (m mod 10)) "").

Definition upto (n : Z) : list Z := map Z.of_nat (seq 0 (Z.to_nat n)).






(** Sample data for the examples: three tasks, a clock, a terminal on
    which [lines] are typed. *)
Definition sample_tasks : list Todo.Task :=
  [Todo.mkTask 1 "Write report" "2025-11-11" false "2025-11-01T08:00:00";
   Todo.mkTask 3 "Pay rent" "" true "2025-11-02T09:15:00";
   Todo.mkTask 5 "Call the bank" "2025-11-13" false "2025-11-03T17:40:12.250000"].

Definition sample_clock : Calendar.datetime :=
  Calendar.mkDatetime (Calendar.mkDate 2025 11 12) 9 30 0 0.

Definition sample_world (lines : list string) : Todo.World :=
  Todo.mkWorld sample_tasks lines sample_clock [].

Definition day_of (y m d : Z) : Calendar.date := Calendar.mkDate y m d.

Definition task_due_on (i : Z) (due : string) (done : bool) : Todo.Task :=
  Todo.mkTask i "task" due done "2025-11-01T08:00:00".

(** Where the due date of a task [t'] can come from after an operation on
    the collection [l]: it is the due date of a task of [l], or it is
    empty, or the date normaliser returned it. *)
Definition due_date_origin (l : list Todo.Task) (t' : Todo.Task) : Prop :=
  (exists t, In t l /\ Todo.due_date t' = Todo.due_date t)
  \/ Todo.due_date t' = ""
  \/ exists line, Todo.due_date t' = Todo.parse_date line.

(** No two tasks of the collection have the same id. *)
Definition ids_unique (l : list Todo.Task) : Prop := NoDup (map Todo.id l).


(** What [show_tasks] prints for a collection, the latest line first. *)
Definition listing (l : list Todo.Task) (filter_by : option string)
           (now : Calendar.date) : list Todo.Event :=
  match l with
  | [] => [Todo.Printed Todo.NoTasksFound]
  | _ =>
      match Todo.filtered l filter_by now with
      | [] => [Todo.Printed Todo.NoTasksMatch]
      | shown =>
          (Todo.Printed Todo.BlankLine
           :: rev (map (fun t => Todo.Printed (Todo.task_line t)) shown)
           ++ [Todo.Printed Todo.TasksHeader])%list
      end
  end.

(** The four operations that change the collection. *)
Definition mutating (op : Todo.M unit) : Prop :=
  op = Todo.add_task \/ op = Todo.edit_task \/ op = Todo.mark_complete
  \/ op = Todo.delete_task.

(** The contents an event list says were written to the data file. *)
Fixpoint saved_contents (evs : list Todo.Event) : list (list Todo.Task) :=
  match evs with
  | [] => []
  | Todo.Saved c :: rest => c :: saved_contents rest
  | Todo.Printed _ :: rest => saved_contents rest
  end.

(** The pattern [strptime] compiles for the format [%Y-%m-%d], in two
    parts: the group of the year and what follows it. *)
Definition y_group : Re.regex :=
  Re.Group "Y"
    (Re.Cat Strptime.digit
       (Re.Cat Strptime.digit (Re.Cat Strptime.digit Strptime.digit))).

Definition md_regex : Re.regex :=
  match Strptime.pattern false "-%m-%d" with
  | Some p => p
  | None => Re.Eps
  end.

(** No white space in a text. *)
Fixpoint no_space (s : string) : bool :=
  match s with
  | EmptyString => true
  | String c s' => negb (PyStr.is_space c) && no_space s'
  end.

(** The invariant of the task store: due dates empty or canonical, ids
    distinct. *)
Definition store_ok (l : list Todo.Task) : Prop :=
  Todo.due_dates_canonical l /\ ids_unique l.

(** The operations the menu can call. *)
Definition on_menu (op : Todo.M unit) : Prop :=
  (exists filter_by, op = Todo.show_tasks filter_by) \/ mutating op.

(** All the ways a pattern matches at the head of a text, in the order in
    which the search of [Re.run] meets them: what each one reads, what it
    leaves, and the groups it finds. *)
Fixpoint plus_splits (cs : Re.charset) (s : string) : list (string * string) :=
  match s with
  | EmptyString => []
  | String c s' =>
      if Re.member cs c then
        (map (fun pr => (String c (fst pr), snd pr)) (plus_splits cs s')
         ++ [(String c "", s')])%list
      else []
  end.

Definition match_split : Type := (string * string * Re.groups)%type.

Fixpoint all_splits (r : Re.regex) (s : string) : list match_split :=
  match r with
  | Re.Eps => [("", s, [])]
  | Re.Char cs =>
      match s with
      | String c s' => if Re.member cs c then [(String c "", s', [])] else []
      | EmptyString => []
      end
  | Re.Plus cs => map (fun pr => (fst pr, snd pr, [])) (plus_splits cs s)
  | Re.Cat r1 r2 =>
      flat_map
        (fun a : match_split =>
           map (fun b : match_split =>
                  (fst (fst a) ++ fst (fst b), snd (fst b),
                   (snd a ++ snd b)%list))
               (all_splits r2 (snd (fst a))))
        (all_splits r1 s)
  | Re.Alt r1 r2 => (all_splits r1 s ++ all_splits r2 s)%list
  | Re.Group name r1 =>
      map (fun a : match_split =>
             (fst (fst a), snd (fst a),
              (snd a ++ [(name, fst (fst a))])%list))
          (all_splits r1 s)
  end.

(** The first element of a list on which [k] succeeds. *)
Fixpoint first_some {A B : Type} (k : A -> option B) (l : list A) : option B :=
  match l with
  | [] => None
  | a :: rest =>
      match k a with
      | Some b => Some b
      | None => first_some k rest
      end
  end.

(** The ways to write a day or a month: with two digits, or as it is. *)
Definition spellings (n : Z) : list string := [two_digits n; PyStr.decimal n].

Definition the_regex (o : option Re.regex) : Re.regex :=
  match o with Some r => r | None => Re.Eps end.

(** The parts of the patterns for [%d/%m/%Y] and [%d-%m-%Y]: the day and
    the month, each with the separator that follows it. *)
Definition d_sep (sep : ascii) : Re.regex :=
  Re.Cat (the_regex (Strptime.directive "d")) (Strptime.lit sep).

Definition m_sep (sep : ascii) : Re.regex :=
  Re.Cat (the_regex (Strptime.directive "m")) (Strptime.lit sep).

(* ------------------------------------------------------------------ *)
(** ** Properties of the runtime model *)

Section Formatting.
Import PyStr.

Lemma upto_In (n z : Z) : 0 <= z < n -> In z (upto n).
Proof.
  intros H. unfold upto. apply in_map_iff. exists (Z.to_nat z). split.
  - lia.
  - apply in_seq. lia.
Qed.

Lemma digit_range (k : Z) :
  0 <= k <= 9 ->
  k = 0 \/ k = 1 \/ k = 2 \/ k = 3 \/ k = 4 \/ k = 5 \/ k = 6 \/ k = 7
  \/ k = 8 \/ k = 9.
Proof. lia. Qed.

Ltac each_digit k H :=
  let D := fresh in
  pose proof (digit_range k H) as D;
  repeat (destruct D as [D | D]; [subst k; try reflexivity |]);
  try (subst k; reflexivity).

Lemma is_digit_digit_char (k : Z) : 0 <= k <= 9 -> is_digit (digit_char k) = true.
Proof. intros H. each_digit k H. Qed.

Lemma digit_val_digit_char (k : Z) : 0 <= k <= 9 -> digit_val (digit_char k) = k.
Proof. intros H. each_digit k H. Qed.

Lemma code_digit_char (k : Z) : 0 <= k <= 9 -> code (digit_char k) = 48 + k.
Proof. intros H. each_digit k H. Qed.

Lemma fmt_04d_all :
  forallb (fun y => (fmt_0d 4 y =? four_digits y)%string) (upto 10000) = true.
Proof. vm_compute. reflexivity. Qed.

Lemma fmt_02d_all :
  forallb (fun m => (fmt_0d 2 m =? two_digits m)%string) (upto 100) = true.
Proof. vm_compute. reflexivity. Qed.

Lemma fmt_04d (y : Z) : 0 <= y <= 9999 -> fmt_0d 4 y = four_digits y.
Proof.
  intros H. apply String.eqb_eq.
  apply (proj1 (forallb_forall _ _) fmt_04d_all). apply upto_In. lia.
Qed.

Lemma fmt_02d (m : Z) : 0 <= m <= 99 -> fmt_0d 2 m = two_digits m.
Proof.
  intros H. apply String.eqb_eq.
  apply (proj1 (forallb_forall _ _) fmt_02d_all). apply upto_In. lia.
Qed.

End Formatting.

Section Dates.
Import PyStr Calendar Todo.

Ltac divmod := Z.div_mod_to_equations; lia.

Lemma four_digits_ok (y : Z) :
  0 <= y <= 9999 ->
  all_digits (four_digits y) = true /\ digits_val 0 (four_digits y) = y.
Proof.
  intros H.
  assert (0 <= y / 1000 <= 9) by divmod.
  assert (0 <= y / 100 mod 10 <= 9) by divmod.
  assert (0 <= y / 10 mod 10 <= 9) by divmod.
  assert (0 <= y mod 10 <= 9) by divmod.
  unfold four_digits; cbn [all_digits digits_val].
  rewrite !is_digit_digit_char, !digit_val_digit_char by assumption.
  split; [reflexivity | divmod].
Qed.

Lemma two_digits_ok (m : Z) :
  0 <= m <= 99 ->
  all_digits (two_digits m) = true /\ digits_val 0 (two_digits m) = m.
Proof.
  intros H.
  assert (0 <= m / 10 <= 9) by divmod.
  assert (0 <= m mod 10 <= 9) by divmod.
  unfold two_digits; cbn [all_digits digits_val].
  rewrite !is_digit_digit_char, !digit_val_digit_char by assumption.
  split; [reflexivity | divmod].
Qed.

Lemma days_in_month_le_31 (y m : Z) : 1 <= m <= 12 -> _days_in_month y m <= 31.
Proof.
  intros H. unfold _days_in_month.
  destruct ((m =? 2) && _is_leap y); [lia |].
  assert (m = 1 \/ m = 2 \/ m = 3 \/ m = 4 \/ m = 5 \/ m = 6 \/ m = 7
          \/ m = 8 \/ m = 9 \/ m = 10 \/ m = 11 \/ m = 12) as D by lia.
  repeat (destruct D as [D | D]; [subst m; cbv; discriminate |]).
  subst m; cbv; discriminate.
Qed.

Lemma check_date_fields_bounds (y m d : Z) :
  _check_date_fields y m d = true ->
  1 <= y <= 9999 /\ 1 <= m <= 12 /\ 1 <= d <= 31.
Proof.
  unfold _check_date_fields, MINYEAR, MAXYEAR.
  rewrite !andb_true_iff, !Z.leb_le. intros H.
  assert (1 <= m <= 12) as Hm by lia.
  pose proof (days_in_month_le_31 y m Hm). lia.
Qed.

Lemma date_isoformat_digits (d : date) :
  valid_date d ->
  date_isoformat d
  = four_digits (year d) ++ "-" ++ two_digits (month d) ++ "-"
    ++ two_digits (day d).
Proof.
  intros H. apply check_date_fields_bounds in H. unfold date_isoformat.
  rewrite fmt_04d, !fmt_02d by lia. reflexivity.
Qed.

(** [date.isoformat] writes the canonical form. *)
Lemma canonical_isoformat (d : date) :
  valid_date d -> canonical (date_isoformat d) = true.
Proof.
  intros H. rewrite date_isoformat_digits by assumption.
  pose proof (check_date_fields_bounds _ _ _ H) as (Hy & Hm & Hd).
  destruct (four_digits_ok (year d)) as [Ay Vy]; [lia |].
  destruct (two_digits_ok (month d)) as [Am Vm]; [lia |].
  destruct (two_digits_ok (day d)) as [Ad Vd]; [lia |].
  unfold four_digits, two_digits in *.
  cbn [append canonical].
  rewrite Ay, Am, Ad, Vy, Vm, Vd. exact H.
Qed.

Lemma isoformat_not_empty (d : date) :
  valid_date d -> is_empty (date_isoformat d) = false.
Proof.
  intros H. rewrite date_isoformat_digits by assumption. reflexivity.
Qed.

Lemma datetime_new_valid y m d hh mm ss us t :
  datetime_new y m d hh mm ss us = Some t ->
  valid_date (dt_date t) /\ dt_date t = mkDate y m d.
Proof.
  unfold datetime_new, valid_date.
  destruct (_check_date_fields y m d) eqn:E; [| discriminate].
  destruct (_check_time_fields hh mm ss us); [| discriminate].
  intros [= <-]. split; [exact E | reflexivity].
Qed.

(** Whatever [strptime] returns is a date of the calendar. *)
Lemma strptime_valid (s fmt : string) (t : datetime) :
  Strptime.strptime s fmt = Some t -> valid_date (dt_date t).
Proof.
  unfold Strptime.strptime.
  destruct (Strptime.compile fmt); [| discriminate].
  destruct (Re.re_match _ _) as [[rest found] |]; [| discriminate].
  destruct (negb (is_empty rest)); [discriminate |].
  destruct (fold_left _ _ _) as [[[y m] d] |]; [| discriminate].
  intros H. apply datetime_new_valid in H. tauto.
Qed.

(** So is whatever [fromisoformat] returns. *)
Lemma fromisoformat_valid (s : string) (t : datetime) :
  IsoFormat.fromisoformat s = Some t -> valid_date (dt_date t).
Proof.
  unfold IsoFormat.fromisoformat.
  destruct (Nat.ltb _ 7); [discriminate |].
  destruct (IsoFormat._find_isoformat_datetime_separator _ _); [| discriminate].
  destruct (IsoFormat.parse_isoformat_date _ _) as [[[y m] d] |];
    [| discriminate].
  destruct (Nat.ltb _ _).
  - destruct (IsoFormat.parse_isoformat_time _ _) as [[[[hh mm] ss] us] |];
      [| discriminate].
    intros H. apply datetime_new_valid in H. tauto.
  - intros H. apply datetime_new_valid in H. tauto.
Qed.

End Dates.

Section RoundTrip.
Import PyStr Calendar Todo IsoFormat.

Ltac divmod := Z.div_mod_to_equations; lia.

Lemma utf8_digit (k : Z) (s : string) :
  0 <= k <= 9 -> utf8 (String (digit_char k) s) = String (digit_char k) (utf8 s).
Proof.
  intros H. cbn [utf8]. rewrite code_digit_char by assumption.
  destruct (48 + k <? 128) eqn:E; [reflexivity | apply Z.ltb_ge in E; lia].
Qed.

Lemma utf8_hyphen (s : string) : utf8 (String "-" s) = String "-" (utf8 s).
Proof. reflexivity. Qed.

Lemma parse_digits_digit (n : nat) (acc k : Z) (p : string) :
  0 <= k <= 9 ->
  parse_digits (S n) acc (String (digit_char k) p)
  = parse_digits n (10 * acc + k) p.
Proof.
  intros H. cbn [parse_digits].
  now rewrite is_digit_digit_char, digit_val_digit_char.
Qed.

Lemma parse_digits_0 (acc : Z) (p : string) :
  parse_digits 0 acc p = Some (acc, p).
Proof. reflexivity. Qed.

Lemma byte_is_digit (c : ascii) (k : Z) :
  0 <= k <= 9 -> is_digit c = false -> byte_is c (digit_char k) = false.
Proof.
  intros H Hc. unfold byte_is.
  destruct (Ascii.eqb_spec (digit_char k) c) as [<- |]; [| reflexivity].
  rewrite is_digit_digit_char in Hc by assumption. discriminate.
Qed.

(** Reading back what [date.isoformat] wrote gives the date, at midnight. *)
Lemma fromisoformat_isoformat (d : date) :
  valid_date d ->
  fromisoformat (date_isoformat d) = Some (mkDatetime d 0 0 0 0).
Proof.
  intros H. rewrite date_isoformat_digits by assumption.
  pose proof (check_date_fields_bounds _ _ _ H) as (Hy & Hm & Hd).
  destruct d as [y m dd]; cbn [year month day] in *.
  assert (0 <= y / 1000 <= 9) by divmod.
  assert (0 <= y / 100 mod 10 <= 9) by divmod.
  assert (0 <= y / 10 mod 10 <= 9) by divmod.
  assert (0 <= y mod 10 <= 9) by divmod.
  assert (0 <= m / 10 <= 9) by divmod.
  assert (0 <= m mod 10 <= 9) by divmod.
  assert (0 <= dd / 10 <= 9) by divmod.
  assert (0 <= dd mod 10 <= 9) by divmod.
  unfold four_digits, two_digits, fromisoformat. cbn [append].
  repeat first [rewrite utf8_digit by assumption | rewrite utf8_hyphen].
  change (utf8 "") with "".
  cbn [String.length Nat.ltb Nat.leb].
  unfold _find_isoformat_datetime_separator, parse_isoformat_date, byte_at.
  repeat first
    [ progress change (byte_is "-" "-") with true
    | rewrite parse_digits_digit by assumption
    | rewrite parse_digits_0
    | rewrite (byte_is_digit "W") by (assumption || reflexivity)
    | progress cbn [peek drop andb negb Nat.ltb Nat.leb Nat.eqb]
    | progress cbv iota beta zeta ].
  replace (10 * (10 * (10 * (10 * 0 + y / 1000) + y / 100 mod 10)
                 + y / 10 mod 10) + y mod 10) with y by divmod.
  replace (10 * (10 * 0 + m / 10) + m mod 10) with m by divmod.
  replace (10 * (10 * 0 + dd / 10) + dd mod 10) with dd by divmod.
  unfold datetime_new. unfold valid_date in H. cbn [year month day] in H.
  rewrite H. reflexivity.
Qed.

End RoundTrip.

(* ------------------------------------------------------------------ *)
(** ** Properties of the program *)

Section Normalizer.
Import PyStr Calendar Todo.

(** The loop over the formats returns the empty string or the ISO form of
    a date of the calendar. *)
Lemma try_formats_result (s : string) (fmts : list string) :
  try_formats s fmts = ""
  \/ exists d, valid_date d /\ try_formats s fmts = date_isoformat d.
Proof.
  induction fmts as [| fmt rest IH]; cbn [try_formats].
  - destruct (IsoFormat.fromisoformat s) as [t |] eqn:E; [| now left].
    right. exists (dt_date t). split; [| reflexivity].
    now apply fromisoformat_valid with s.
  - destruct (Strptime.strptime s fmt) as [t |] eqn:E; [| exact IH].
    right. exists (dt_date t). split; [| reflexivity].
    now apply strptime_valid with s fmt.
Qed.


(** When every attempt fails the loop returns the empty string. *)
Lemma try_formats_none (s : string) (fmts : list string) :
  (forall fmt, In fmt fmts -> Strptime.strptime s fmt = None) ->
  IsoFormat.fromisoformat s = None ->
  try_formats s fmts = "".
Proof.
  induction fmts as [| f rest IH]; intros Hall Hiso; cbn [try_formats].
  - now rewrite Hiso.
  - rewrite (Hall f) by now left. apply IH; [| assumption].
    intros fmt Hin. apply Hall. now right.
Qed.

Lemma parse_date_result (s : string) :
  parse_date s = ""
  \/ exists d, valid_date d /\ parse_date s = date_isoformat d.
Proof.
  unfold parse_date. destruct (is_empty s); [now left |].
  apply try_formats_result.
Qed.

Lemma parse_date_canonical (s : string) :
  parse_date s = "" \/ canonical (parse_date s) = true.
Proof.
  destruct (parse_date_result s) as [E | (d & Hd & E)]; [now left |].
  right. rewrite E. now apply canonical_isoformat.
Qed.

Lemma is_empty_true (s : string) : is_empty s = true <-> s = "".
Proof. destruct s; cbn; split; congruence. Qed.

Lemma is_empty_false (s : string) : is_empty s = false <-> s <> "".
Proof. destruct s; cbn; split; congruence. Qed.

End Normalizer.

Section Lists.
Import PyStr Calendar Todo.

Lemma py_max_spec (xs : list Z) : forall x,
  In (py_max x xs) (x :: xs) /\ forall i, In i (x :: xs) -> i <= py_max x xs.
Proof.
  unfold py_max. induction xs as [| a r IH]; intros x; cbn [fold_left].
  - split; [now left |]. intros i [<- | []]. lia.
  - destruct (IH (Z.max x a)) as [Hin Hle]. split.
    + destruct Hin as [Hm | Hm].
      * rewrite <- Hm.
        destruct (Z.max_spec x a) as [[_ ->] | [_ ->]]; cbn; auto.
      * right. now right.
    + specialize (Hle (Z.max x a)) as Hm. specialize (Hm (or_introl eq_refl)).
      intros i [E | [E | Hi]]; [lia | lia |].
      apply Hle. now right.
Qed.

Lemma filtered_from (f : option string) (now : date) (l : list Task) :
  forall acc,
    fold_left (fun filtered task =>
                 if selected f now task then (filtered ++ [task])%list
                 else filtered) l acc
    = (acc ++ filter (selected f now) l)%list.
Proof.
  induction l as [| t r IH]; intros acc; cbn [fold_left filter].
  - now rewrite app_nil_r.
  - rewrite IH. destruct (selected f now t); [| reflexivity].
    now rewrite <- app_assoc.
Qed.

(** The loop of [show_tasks] keeps, in their order, the tasks that pass
    the chain of tests. *)
Lemma filtered_filter (f : option string) (now : date) (l : list Task) :
  filtered l f now = filter (selected f now) l.
Proof. unfold filtered. now rewrite filtered_from. Qed.

Lemma find_none (l : list Task) (i : Z) :
  find_task_by_id l i = None <-> forall t, In t l -> id t <> i.
Proof.
  induction l as [| t r IH]; cbn [find_task_by_id].
  - split; [intros _ t [] | reflexivity].
  - destruct (Z.eqb_spec (id t) i) as [E | E].
    + split; [discriminate |]. intros H. exfalso. apply (H t); [now left | exact E].
    + destruct (find_task_by_id r i) eqn:F; cbn [option_map].
      * split; [discriminate |]. intros H.
        destruct IH as [_ IH]. discriminate IH.
        intros t' Hin. apply H. now right.
      * split; [| reflexivity]. intros _ t' [<- | Hin]; [exact E |].
        now apply (proj1 IH).
Qed.








Lemma Forall_update_at (P : Task -> Prop) (f : Task -> Task) (l : list Task) :
  (forall t, P t -> P (f t)) ->
  forall ref, Forall P l -> Forall P (update_at ref f l).
Proof.
  intros Hf. induction l as [| t r IH]; intros [| ref] H; cbn; auto;
    inversion H; subst; constructor; auto.
Qed.

Lemma Forall_list_remove (P : Task -> Prop) (x : Task) (l : list Task) :
  Forall P l -> Forall P (list_remove x l).
Proof.
  induction 1 as [| t r Ht Hr IH]; cbn; [constructor |].
  destruct (Task_eqb t x); [assumption | now constructor].
Qed.

End Lists.

Section StoreAndFilter.
Import PyStr Calendar Todo.

(** C2.  [generate_id] returns 1 for the empty collection and otherwise one
    more than the greatest id among the tasks; with the ids 1, 3 and 5, in
    any order, it returns 6. *)
Theorem generate_id_next :
  generate_id [] = 1
  /\ (forall tasks : list Task,
        tasks <> [] ->
        exists t, In t tasks
                  /\ (forall t', In t' tasks -> id t' <= id t)
                  /\ generate_id tasks = id t + 1)
  /\ (forall tasks : list Task,
        Permutation (map id tasks) [1; 3; 5] -> generate_id tasks = 6).
Proof.
  assert (forall tasks : list Task,
             tasks <> [] ->
             exists t, In t tasks
                       /\ (forall t', In t' tasks -> id t' <= id t)
                       /\ generate_id tasks = id t + 1) as Hmax.
  { intros [| a r] Hne; [congruence |].
    unfold generate_id. cbn [map].
    destruct (py_max_spec (map id r) (id a)) as [Hin Hle].
    change (id a :: map id r) with (map id (a :: r)) in Hin, Hle.
    apply in_map_iff in Hin. destruct Hin as (t & Et & Hin).
    exists t. split; [exact Hin |]. split; [| now rewrite Et].
    intros t' Hin'. rewrite Et. apply Hle. now apply in_map. }
  split; [reflexivity |]. split; [exact Hmax |].
  intros l Hperm.
  assert (l <> []) as Hne.
  { intros ->. apply Permutation_nil in Hperm. discriminate. }
  destruct (Hmax l Hne) as (t & Hin & Hle & ->).
  assert (In (id t) [1; 3; 5]) as Hid.
  { apply (Permutation_in _ Hperm). now apply in_map. }
  assert (In 5 (map id l)) as H5.
  { apply (Permutation_in _ (Permutation_sym Hperm)). cbn. auto. }
  apply in_map_iff in H5. destruct H5 as (t5 & E5 & Hin5).
  specialize (Hle t5 Hin5). cbn in Hid. lia.
Qed.

(** C9.  A filter kind other than all, completed, incomplete, due_today and
    overdue selects no task, and [show_tasks] then reports, for a
    collection that is not empty, that no task matches. *)
Theorem unknown_filter_selects_nothing (kind : string) :
  kind <> "all" -> kind <> "completed" -> kind <> "incomplete" ->
  kind <> "due_today" -> kind <> "overdue" ->
  (forall (l : list Task) (now : date), filtered l (Some kind) now = [])
  /\ (forall w : World,
        tasks w <> [] ->
        show_tasks (Some kind) w = Ok tt (log (Printed NoTasksMatch) w)).
Proof.
  intros Hall Hc Hi Hd Ho.
  assert (forall (l : list Task) (now : date), filtered l (Some kind) now = [])
    as Hnone.
  { intros l now. rewrite filtered_filter.
    induction l as [| t r IH]; [reflexivity |]. cbn [filter].
    unfold selected at 1.
    apply String.eqb_neq in Hall, Hc, Hi, Hd, Ho.
    rewrite Hall, Hc, Hi, Hd, Ho. exact IH. }
  split; [exact Hnone |].
  intros w Hne. unfold show_tasks, bind, get_tasks, datetime_now.
  destruct (tasks w) as [| t r] eqn:E; [congruence |].
  rewrite <- E, Hnone. reflexivity.
Qed.

Lemma date_ltb_irrefl (a : date) : date_ltb a a = false.
Proof.
  unfold date_ltb. rewrite !Z.ltb_irrefl, !Z.eqb_refl. reflexivity.
Qed.

Lemma date_eqb_refl (a : date) : date_eqb a a = true.
Proof. unfold date_eqb. now rewrite !Z.eqb_refl. Qed.

Lemma date_ltb_spec (a b : date) :
  date_ltb a b = true <->
  year a < year b
  \/ (year a = year b
      /\ (month a < month b \/ (month a = month b /\ day a < day b))).
Proof.
  unfold date_ltb.
  rewrite !orb_true_iff, !andb_true_iff, !orb_true_iff, !andb_true_iff,
    !Z.ltb_lt, !Z.eqb_eq.
  reflexivity.
Qed.

Lemma date_eqb_spec (a b : date) :
  date_eqb a b = true <->
  year a = year b /\ month a = month b /\ day a = day b.
Proof.
  unfold date_eqb. rewrite !andb_true_iff, !Z.eqb_eq. tauto.
Qed.

Lemma date_ltb_not_eqb (a b : date) : date_ltb a b = true -> date_eqb a b = false.
Proof.
  intros H. apply date_ltb_spec in H.
  destruct (date_eqb a b) eqn:E; [| reflexivity].
  apply date_eqb_spec in E. lia.
Qed.

Lemma date_ltb_not_eqb_sym (a b : date) :
  date_ltb a b = true -> date_eqb b a = false.
Proof.
  intros H. apply date_ltb_spec in H.
  destruct (date_eqb b a) eqn:E; [| reflexivity].
  apply date_eqb_spec in E. lia.
Qed.

Lemma date_ltb_asym (a b : date) : date_ltb a b = true -> date_ltb b a = false.
Proof.
  intros H. apply date_ltb_spec in H.
  destruct (date_ltb b a) eqn:E; [| reflexivity].
  apply date_ltb_spec in E. lia.
Qed.

(** A task whose due date is the ISO form of a date is due on that date. *)
Lemma task_due_isoformat (t : Task) (d : date) :
  valid_date d -> due_date t = date_isoformat d -> task_due t = Some d.
Proof.
  intros Hd E. unfold task_due, due_day. rewrite E.
  rewrite isoformat_not_empty, fromisoformat_isoformat by assumption.
  reflexivity.
Qed.

Lemma selected_completed (now : date) (t : Task) :
  selected (Some "completed") now t = is_completed t.
Proof. unfold selected, is_completed. cbn. now destruct (completed t). Qed.

Lemma selected_incomplete (now : date) (t : Task) :
  selected (Some "incomplete") now t = is_incomplete t.
Proof. unfold selected, is_incomplete. cbn. now destruct (completed t). Qed.

Lemma selected_due_today (now : date) (t : Task) :
  selected (Some "due_today") now t = is_due_today now t.
Proof.
  unfold selected, is_due_today, task_due. cbn.
  destruct (completed t), (is_empty (due_date t)); reflexivity.
Qed.

Lemma selected_overdue (now : date) (t : Task) :
  selected (Some "overdue") now t = is_overdue now t.
Proof.
  unfold selected, is_overdue, task_due. cbn.
  destruct (completed t), (is_empty (due_date t)); cbn;
    try reflexivity; now destruct (due_day t).
Qed.

(** C1.  For every collection and every date [today], each filter kind
    selects, in the order of the collection, exactly the tasks of its
    predicate: completed, not completed, due date equal to today, and not
    completed with a due date before today.  For A (due yesterday, open),
    B (due today, open), C (due tomorrow, open) and D (due yesterday,
    completed): overdue gives A, due_today gives B, completed gives D and
    incomplete gives A, B, C. *)
Theorem filter_classification (tasks : list Task) (today : date) :
  (filtered tasks (Some "completed") today = filter is_completed tasks
   /\ filtered tasks (Some "incomplete") today = filter is_incomplete tasks
   /\ filtered tasks (Some "due_today") today
      = filter (is_due_today today) tasks
   /\ filtered tasks (Some "overdue") today = filter (is_overdue today) tasks)
  /\ forall (yesterday tomorrow : date) (A B C D : Task),
      valid_date yesterday -> valid_date today -> valid_date tomorrow ->
      date_ltb yesterday today = true -> date_ltb today tomorrow = true ->
      due_date A = date_isoformat yesterday -> completed A = false ->
      due_date B = date_isoformat today -> completed B = false ->
      due_date C = date_isoformat tomorrow -> completed C = false ->
      due_date D = date_isoformat yesterday -> completed D = true ->
      filtered [A; B; C; D] (Some "overdue") today = [A]
      /\ filtered [A; B; C; D] (Some "due_today") today = [B]
      /\ filtered [A; B; C; D] (Some "completed") today = [D]
      /\ filtered [A; B; C; D] (Some "incomplete") today = [A; B; C].
Proof.
  split.
  - rewrite !filtered_filter. repeat split; apply filter_ext; intros t.
    + apply selected_completed.
    + apply selected_incomplete.
    + apply selected_due_today.
    + apply selected_overdue.
  - intros yesterday tomorrow A B C D Vy Vt Vm Lyt Ltm DA CA DB CB DC CC DD CD.
    rewrite !filtered_filter. cbn [filter].
    rewrite !selected_overdue, !selected_due_today, !selected_completed,
      !selected_incomplete.
    unfold is_overdue, is_due_today, is_completed, is_incomplete.
    rewrite (task_due_isoformat A yesterday), (task_due_isoformat B today),
      (task_due_isoformat C tomorrow), (task_due_isoformat D yesterday)
      by assumption.
    rewrite CA, CB, CC, CD, Lyt, date_eqb_refl, date_ltb_irrefl.
    rewrite (date_ltb_asym _ _ Ltm), (date_ltb_not_eqb _ _ Lyt),
      (date_ltb_not_eqb_sym _ _ Ltm).
    cbn. repeat split; reflexivity.
Qed.


(** C4, as the code has it.  [parse_date] returns the empty string for
    empty and white-space-only input and the same empty string when every
    attempt to parse fails: the value returned does not tell the two
    apart. *)
Theorem parse_date_failure_is_empty (s : string) :
  (strip s = "" -> parse_date s = "")
  /\ ((forall fmt, In fmt formats -> Strptime.strptime (strip s) fmt = None) ->
      IsoFormat.fromisoformat (strip s) = None ->
      parse_date s = "")
  /\ (parse_date s = "" ->
      s = ""
      \/ ((forall fmt, In fmt formats -> Strptime.strptime (strip s) fmt = None)
          /\ IsoFormat.fromisoformat (strip s) = None)).
Proof.
  unfold parse_date. repeat split.
  - intros E. destruct (is_empty s); [reflexivity |]. rewrite E.
    vm_compute. reflexivity.
  - intros Hall Hiso. destruct (is_empty s); [reflexivity |].
    now apply try_formats_none.
  - destruct (is_empty s) eqn:Es; [left; now apply is_empty_true |].
    intros E. right.
    assert (forall fmts,
               try_formats (strip s) fmts = "" ->
               (forall fmt, In fmt fmts ->
                            Strptime.strptime (strip s) fmt = None)
               /\ IsoFormat.fromisoformat (strip s) = None) as H.
    { induction fmts as [| f r IH]; cbn [try_formats]; intros Hr.
      - split; [intros fmt [] |].
        destruct (IsoFormat.fromisoformat (strip s)) as [t |] eqn:F;
          [| reflexivity].
        apply fromisoformat_valid in F. apply isoformat_not_empty in F.
        rewrite Hr in F. discriminate.
      - destruct (Strptime.strptime (strip s) f) as [t |] eqn:F.
        + apply strptime_valid in F. apply isoformat_not_empty in F.
          rewrite Hr in F. discriminate.
        + destruct (IH Hr) as [Hall Hiso]. split; [| exact Hiso].
          intros fmt [<- | Hin]; [exact F | now apply Hall]. }
    now apply H.
Qed.

(** The claim C4 fails on the code: the empty input and an input that no
    attempt can parse give the same result. *)
Lemma parse_date_outcomes_coincide :
  parse_date "" = parse_date "not a date".
Proof. vm_compute. reflexivity. Qed.

End StoreAndFilter.

Section Operations.
Import PyStr Calendar Todo.












Lemma canonical_update_at (f : Task -> Task) (l : list Task) (ref : nat) :
  (forall t, due_date (f t) = due_date t \/ due_date (f t) = ""
             \/ canonical (due_date (f t)) = true) ->
  due_dates_canonical l -> due_dates_canonical (update_at ref f l).
Proof.
  intros Hf. apply Forall_update_at. intros t Ht.
  destruct (Hf t) as [-> | [E | E]]; auto.
Qed.

Lemma canonical_append (l : list Task) (t : Task) :
  due_dates_canonical l ->
  due_date t = "" \/ canonical (due_date t) = true ->
  due_dates_canonical (l ++ [t]).
Proof.
  intros Hl Ht. apply Forall_app. split; [exact Hl |]. now constructor.
Qed.

Ltac split_innermost x :=
  lazymatch x with
  | context [match ?y with _ => _ end] => split_innermost y
  | _ => destruct x eqn:?
  end.

Ltac run_cases :=
  unfold add_task, edit_task, mark_complete, delete_task, show_tasks,
    assign, bind, input, get_tasks, set_tasks, datetime_now, print,
    save_tasks, ret, log, final;
  cbn [tasks stdin clock events];
  repeat match goal with
         | |- context [match ?x with _ => _ end] =>
             split_innermost x; cbn [tasks stdin clock events]
         end.

Lemma print_all_tasks (ms : list Message) (w : World) :
  tasks (final (print_all ms w)) = tasks w.
Proof.
  revert w. induction ms as [| m r IH]; intros w; [reflexivity |].
  cbn [print_all]. unfold bind, print. now rewrite IH.
Qed.

Lemma origin_old (l : list Task) (t : Task) : In t l -> due_date_origin l t.
Proof. intros H. left. now exists t. Qed.

Lemma origin_update_at (f : Task -> Task) (l l0 : list Task) (ref : nat) :
  (forall t, due_date (f t) = due_date t \/ due_date (f t) = ""
             \/ exists line, due_date (f t) = parse_date line) ->
  (forall t', In t' l0 -> due_date_origin l t') ->
  forall t', In t' (update_at ref f l0) -> due_date_origin l t'.
Proof.
  intros Hf. revert ref.
  induction l0 as [| a r IH]; intros [| ref] H0 t' Hin; cbn in Hin;
    try contradiction.
  - destruct Hin as [<- | Hin]; [| apply H0; now right].
    destruct (Hf a) as [E | [E | E]].
    + destruct (H0 a (or_introl eq_refl)) as [(t & Ht & Ed) | [Ed | (s & Ed)]].
      * left. exists t. split; [exact Ht | congruence].
      * right. left. congruence.
      * right. right. exists s. congruence.
    + right. now left.
    + right. now right.
  - destruct Hin as [<- | Hin]; [apply H0; now left |].
    apply (IH ref); [| exact Hin]. intros t0 Ht0. apply H0. now right.
Qed.

(** C8.  Every operation keeps the due dates of the collection empty or in
    the canonical form YYYY-MM-DD, whatever is typed and also when the
    input ends in the middle of the operation; listing the tasks changes
    nothing.  A due date found after [add_task] or [edit_task] was there
    before, or is empty, or is what the date normaliser returned. *)
Theorem due_dates_stay_canonical (w : World) :
  (due_dates_canonical (tasks w) ->
   due_dates_canonical (tasks (final (add_task w)))
   /\ due_dates_canonical (tasks (final (edit_task w)))
   /\ due_dates_canonical (tasks (final (mark_complete w)))
   /\ due_dates_canonical (tasks (final (delete_task w))))
  /\ (forall filter_by, tasks (final (show_tasks filter_by w)) = tasks w)
  /\ (forall t', In t' (tasks (final (add_task w))) ->
                 due_date_origin (tasks w) t')
  /\ (forall t', In t' (tasks (final (edit_task w))) ->
                 due_date_origin (tasks w) t').
Proof.
  destruct w as [l inp clk evs]. cbn [tasks].
  split; [| split; [| split]].
  - intros Hinv.
    pose proof parse_date_canonical as Hparse.
    assert (forall ref v, due_dates_canonical
                            (update_at ref (set_title v) l)) as Htitle.
    { intros. apply canonical_update_at; auto. }
    assert (forall ref v l0, due_dates_canonical l0 ->
                             v = "" \/ canonical v = true ->
                             due_dates_canonical
                               (update_at ref (set_due_date v) l0)) as Hdue.
    { intros ref v l0 H0 [-> | Hv]; apply canonical_update_at; cbn; auto. }
    split; [| split; [| split]].
    + run_cases; try assumption.
      apply canonical_append; [assumption | apply Hparse].
    + run_cases; try assumption; auto.
    + run_cases; try assumption; apply canonical_update_at; cbn; auto.
    + run_cases; try assumption; now apply Forall_list_remove.
  - intros filter_by. unfold show_tasks, bind, get_tasks, datetime_now, print.
    cbn [tasks clock].
    destruct l as [| t r]; [reflexivity |].
    destruct (filtered _ _ _); [reflexivity |].
    cbn [log tasks].
    match goal with
    | |- tasks (final (match print_all ?ms ?w0 with _ => _ end)) = _ =>
        pose proof (print_all_tasks ms w0) as Hp;
        destruct (print_all ms w0)
    end; exact Hp.
  - run_cases; try (intros t' Hin; now apply origin_old).
    intros t' Hin. apply in_app_or in Hin.
    destruct Hin as [Hin | [<- | []]]; [now apply origin_old |].
    right. right. cbn [due_date]. eexists. reflexivity.
  - pose proof (origin_old l) as Hold.
    run_cases; try exact Hold;
      repeat (apply origin_update_at;
              [intros t0; cbn [due_date set_title set_due_date];
               first [now left | right; now left
                     | right; right; eexists; reflexivity] |]);
      exact Hold.
Qed.

End Operations.

(* ------------------------------------------------------------------ *)
(** ** The theorems at concrete inputs *)

Section Witnesses.
Import PyStr Calendar Todo.

Lemma generate_id_next_witness :
  (exists t, In t sample_tasks
             /\ (forall t', In t' sample_tasks -> id t' <= id t)
             /\ generate_id sample_tasks = id t + 1)
  /\ generate_id sample_tasks = 6.
Proof.
  split.
  - apply (proj1 (proj2 generate_id_next) sample_tasks). discriminate.
  - apply (proj2 (proj2 generate_id_next) sample_tasks). apply Permutation_refl.
Defined.

Lemma filter_classification_witness :
  let today := day_of 2025 11 12 in
  let A := task_due_on 1 "2025-11-11" false in
  let B := task_due_on 2 "2025-11-12" false in
  let C := task_due_on 3 "2025-11-13" false in
  let D := task_due_on 4 "2025-11-11" true in
  filtered [A; B; C; D] (Some "overdue") today = [A]
  /\ filtered [A; B; C; D] (Some "due_today") today = [B]
  /\ filtered [A; B; C; D] (Some "completed") today = [D]
  /\ filtered [A; B; C; D] (Some "incomplete") today = [A; B; C].
Proof.
  intros today A B C D.
  apply (proj2 (filter_classification [] today)
               (day_of 2025 11 11) (day_of 2025 11 13) A B C D);
    reflexivity.
Defined.


Lemma parse_date_failure_is_empty_witness :
  parse_date "   " = "" /\ parse_date "not a date" = "".
Proof.
  split.
  - apply (proj1 (parse_date_failure_is_empty "   ")). reflexivity.
  - apply (proj1 (proj2 (parse_date_failure_is_empty "not a date"))).
    + intros fmt Hin. cbn in Hin.
      repeat (destruct Hin as [<- | Hin]; [reflexivity |]). contradiction.
    + reflexivity.
Defined.





Lemma sample_tasks_canonical : due_dates_canonical sample_tasks.
Proof.
  unfold due_dates_canonical, sample_tasks.
  repeat (apply Forall_cons; [cbn; first [now left | now right] |]).
  apply Forall_nil.
Qed.

Lemma due_dates_stay_canonical_witness :
  (due_dates_canonical
     (tasks (final (add_task (sample_world ["Buy milk"; "12 Nov 2025"]))))
   /\ due_dates_canonical
        (tasks (final (edit_task (sample_world ["Buy milk"; "12 Nov 2025"]))))
   /\ due_dates_canonical
        (tasks (final (mark_complete
                         (sample_world ["Buy milk"; "12 Nov 2025"]))))
   /\ due_dates_canonical
        (tasks (final (delete_task
                         (sample_world ["Buy milk"; "12 Nov 2025"])))))
  /\ due_date_origin sample_tasks
       (mkTask 6 "Buy milk" "2025-11-12" false "2025-11-12T09:30:00").
Proof.
  split.
  - apply (proj1 (due_dates_stay_canonical
                    (sample_world ["Buy milk"; "12 Nov 2025"]))
                 sample_tasks_canonical).
  - apply (proj1 (proj2 (proj2 (due_dates_stay_canonical
                                  (sample_world ["Buy milk"; "12 Nov 2025"]))))).
    vm_compute. tauto.
Defined.

Lemma unknown_filter_selects_nothing_witness :
  filtered sample_tasks (Some "urgent") (day_of 2025 11 12) = []
  /\ show_tasks (Some "urgent") (sample_world [])
     = Ok tt (log (Printed NoTasksMatch) (sample_world [])).
Proof.
  assert (forall a b : string, (a =? b)%string = false -> a <> b) as Hne
    by (intros a b H; now apply String.eqb_neq).
  destruct (unknown_filter_selects_nothing "urgent"
              (Hne "urgent" "all" eq_refl) (Hne "urgent" "completed" eq_refl)
              (Hne "urgent" "incomplete" eq_refl)
              (Hne "urgent" "due_today" eq_refl)
              (Hne "urgent" "overdue" eq_refl)) as [Hf Hs].
  split; [apply Hf |]. apply Hs. discriminate.
Defined.


End Witnesses.

(* ------------------------------------------------------------------ *)
(** ** Sample runs *)

Section Examples.
Import PyStr Calendar Todo.

Example strptime_examples :
  Strptime.strptime "12   noVEMber 2025" "%d %B %Y"
  = Some (mkDatetime (mkDate 2025 11 12) 0 0 0 0)
  /\ Strptime.strptime "2025-11-123" "%Y-%m-%d" = None
  /\ Strptime.strptime "2025-02-30" "%Y-%m-%d" = None
  /\ Strptime.strptime "0000-02-03" "%Y-%m-%d" = None.
Proof. repeat split; reflexivity. Qed.

Example fromisoformat_examples :
  IsoFormat.fromisoformat "2025-11-12T10:30:15.5+05:30"
  = Some (mkDatetime (mkDate 2025 11 12) 10 30 15 500000)
  /\ IsoFormat.fromisoformat "2025-W46-3"
     = Some (mkDatetime (mkDate 2025 11 12) 0 0 0 0)
  /\ IsoFormat.fromisoformat "2025-11-12x" = None
  /\ IsoFormat.fromisoformat "20251112" 
     = Some (mkDatetime (mkDate 2025 11 12) 0 0 0 0).
Proof. repeat split; reflexivity. Qed.

Example int_examples :
  PyStr.int " -1_000 " = Some (-1000) /\ PyStr.int "1__0" = None
  /\ PyStr.int "" = None /\ PyStr.int "12a" = None /\ PyStr.int "007" = Some 7.
Proof. repeat split; reflexivity. Qed.

(** Adding a task with a date the normaliser cannot read stores no due
    date; the new id follows the greatest one. *)
Example add_task_example :
  tasks (final (add_task (sample_world ["  Buy milk "; "next week"])))
  = (sample_tasks
     ++ [mkTask 6 "Buy milk" "" false "2025-11-12T09:30:00"])%list.
Proof. reflexivity. Qed.

(** After the task with the greatest id is deleted, the next id is counted
    from the greatest id that is left. *)
Example delete_then_add_example :
  map id (tasks (final (add_task
                   (final (delete_task (sample_world ["5"; "Again"; ""]))))))
  = [1; 3; 4].
Proof. reflexivity. Qed.

Example show_tasks_example :
  events (final (show_tasks (Some "overdue") (sample_world [])))
  = [Printed BlankLine;
     Printed (TaskLine 1 false "Write report" "2025-11-11");
     Printed TasksHeader].
Proof. reflexivity. Qed.

End Examples.

(* ------------------------------------------------------------------ *)
(** ** Further properties of the task store *)

Section Lookup.
Import PyStr Calendar Todo.



(** X1.  [find_task_by_id] returns the first task with the id: the task at
    the position returned has the id and no task before it has; it returns
    nothing exactly when no task has the id. *)
Theorem find_task_by_id_first (l : list Task) (task_id : Z) :
  (forall ref, find_task_by_id l task_id = Some ref ->
     exists t, nth_error l ref = Some t /\ id t = task_id
               /\ forall k t0, (k < ref)%nat -> nth_error l k = Some t0 ->
                               id t0 <> task_id)
  /\ (find_task_by_id l task_id = None <->
      forall t, In t l -> id t <> task_id).
Proof.
  split; [| apply find_none].
  induction l as [| a r IH]; intros ref; cbn [find_task_by_id].
  - discriminate.
  - destruct (Z.eqb_spec (id a) task_id) as [E | E].
    + intros [= <-]. exists a. repeat split; [exact E |]. intros k t0 Hk. lia.
    + destruct (find_task_by_id r task_id) as [k0 |]; [| discriminate].
      intros [= <-]. destruct (IH k0 eq_refl) as (t & Hn & Hi & Hfirst).
      exists t. repeat split; [exact Hn | exact Hi |].
      intros [| k] t0 Hk Hk0; cbn in Hk0.
      * injection Hk0 as <-. exact E.
      * apply (Hfirst k t0); [lia | exact Hk0].
Qed.

Lemma find_task_by_id_first_witness :
  exists t, nth_error sample_tasks 1 = Some t /\ id t = 3
            /\ forall k t0, (k < 1)%nat -> nth_error sample_tasks k = Some t0 ->
                            id t0 <> 3.
Proof.
  apply (proj1 (find_task_by_id_first sample_tasks 3) 1%nat). reflexivity.
Defined.


End Lookup.

Section AddAndDelete.
Import PyStr Calendar Todo.

Lemma generate_id_greater (l : list Task) (t : Task) :
  In t l -> id t < generate_id l.
Proof.
  destruct l as [| a r]; [contradiction |]. intros Hin.
  unfold generate_id. cbn [map].
  destruct (py_max_spec (map id r) (id a)) as [_ Hle].
  specialize (Hle (id t)).
  change (id a :: map id r) with (map id (a :: r)) in Hle.
  specialize (Hle (in_map id _ _ Hin)). lia.
Qed.

Lemma generate_id_positive (l : list Task) :
  (forall t, In t l -> 0 < id t) -> 0 < generate_id l.
Proof.
  destruct l as [| a r]; intros H; [reflexivity |].
  specialize (generate_id_greater (a :: r) a (or_introl eq_refl)).
  specialize (H a (or_introl eq_refl)). lia.
Qed.

(** A run of [add_task] with a title that is not blank. *)
Lemma add_task_run (w : World) (title_line due_line : string)
      (rest : list string) :
  stdin w = title_line :: due_line :: rest ->
  strip title_line <> "" ->
  let new_task :=
    mkTask (generate_id (tasks w)) (strip title_line) (parse_date due_line)
           false (datetime_isoformat (clock w)) in
  add_task w
  = Ok tt (mkWorld (tasks w ++ [new_task]) rest (clock w)
             (Printed (TaskAdded (id new_task) (title new_task))
              :: Saved (tasks w ++ [new_task])
              :: Printed (Asked AskDueDate) :: Printed (Asked AskTitle)
              :: events w)).
Proof.
  destruct w as [l inp clk evs]. cbn [tasks stdin clock events].
  intros -> Hne. apply is_empty_false in Hne.
  unfold add_task, bind, input, log. cbn [stdin tasks clock events].
  rewrite Hne. reflexivity.
Qed.

(** X3.  [add_task] with a title that is not blank appends one task and
    saves the collection: the task has the trimmed title, the normalised
    due date, [completed] false, the time of the clock and an id greater
    than every id of the collection, which is positive when all of them
    are. *)
Theorem add_task_appends (w : World) (title_line due_line : string)
        (rest : list string) :
  stdin w = title_line :: due_line :: rest ->
  strip title_line <> "" ->
  exists (t : Task) (w' : World),
    add_task w = Ok tt w'
    /\ tasks w' = (tasks w ++ [t])%list
    /\ title t = strip title_line
    /\ due_date t = parse_date due_line
    /\ completed t = false
    /\ created_at t = datetime_isoformat (clock w)
    /\ id t = generate_id (tasks w)
    /\ (forall t0, In t0 (tasks w) -> id t0 < id t)
    /\ ((forall t0, In t0 (tasks w) -> 0 < id t0) -> 0 < id t)
    /\ stdin w' = rest
    /\ events w' = Printed (TaskAdded (id t) (title t)) :: Saved (tasks w')
                   :: Printed (Asked AskDueDate) :: Printed (Asked AskTitle)
                   :: events w.
Proof.
  intros Hin Hne. pose proof (add_task_run w _ _ _ Hin Hne) as Hrun.
  cbv zeta in Hrun. eexists. eexists. split; [exact Hrun |].
  cbn [tasks stdin events id title due_date completed created_at].
  repeat split.
  - intros t0. apply generate_id_greater.
  - apply generate_id_positive.
Qed.

Lemma add_task_appends_witness :
  exists (t : Task) (w' : World),
    add_task (sample_world [" Buy milk "; "12/11/2025"; "6"]) = Ok tt w'
    /\ tasks w' = (sample_tasks ++ [t])%list
    /\ title t = "Buy milk"
    /\ due_date t = "2025-11-12"
    /\ id t = 6.
Proof.
  destruct (add_task_appends (sample_world [" Buy milk "; "12/11/2025"; "6"])
                             " Buy milk " "12/11/2025" ["6"] eq_refl)
    as (t & w' & Hr & Ht & Hti & Hd & _ & _ & Hi & _).
  - vm_compute. discriminate.
  - exists t, w'. repeat split; assumption.
Defined.











End AddAndDelete.

Section Persistence.
Import PyStr Calendar Todo.

Ltac split_innermost x :=
  lazymatch x with
  | context [match ?y with _ => _ end] => split_innermost y
  | _ => destruct x eqn:?
  end.

Ltac run_cases :=
  unfold add_task, edit_task, mark_complete, delete_task, show_tasks,
    assign, bind, input, get_tasks, set_tasks, datetime_now, print,
    save_tasks, ret, log, final;
  cbn [tasks stdin clock events];
  repeat match goal with
         | |- context [match ?x with _ => _ end] =>
             split_innermost x; cbn [tasks stdin clock events]
         end.

Lemma map_id_update_at (f : Task -> Task) (l : list Task) :
  (forall t, id (f t) = id t) ->
  forall ref, map id (update_at ref f l) = map id l.
Proof.
  intros Hf. induction l as [| a r IH]; intros [| ref]; cbn; auto.
  - now rewrite Hf.
  - now rewrite IH.
Qed.

Lemma list_remove_In (x t : Task) (l : list Task) :
  In t (list_remove x l) -> In t l.
Proof.
  induction l as [| a r IH]; cbn; [tauto |].
  destruct (Task_eqb a x); cbn; tauto.
Qed.

Lemma list_remove_unique (x : Task) (l : list Task) :
  ids_unique l -> ids_unique (list_remove x l).
Proof.
  unfold ids_unique. induction l as [| a r IH]; cbn; [auto |].
  intros H. inversion H as [| i0 rest0 Hnot Hnd]; subst.
  destruct (Task_eqb a x); [exact Hnd |]. cbn. constructor; [| now apply IH].
  intros Hin. apply Hnot. apply in_map_iff in Hin.
  destruct Hin as (t & E & Hin). rewrite <- E. apply in_map.
  now apply list_remove_In with x.
Qed.

Lemma append_unique (l : list Task) (t : Task) :
  ids_unique l -> (forall t0, In t0 l -> id t0 < id t) ->
  ids_unique (l ++ [t]).
Proof.
  unfold ids_unique. intros Hu Hlt. rewrite map_app. cbn [map].
  apply NoDup_app; [exact Hu | repeat constructor; auto |].
  intros i Hin [<- | []]. apply in_map_iff in Hin.
  destruct Hin as (t0 & E & Hin). specialize (Hlt t0 Hin). lia.
Qed.

(** X4.  Every operation keeps the ids of the collection distinct, whatever
    is typed and also when the input ends in the middle of the operation:
    [add_task] gives an id greater than all, the others change no id. *)
Theorem ids_stay_unique (w : World) :
  ids_unique (tasks w) ->
  ids_unique (tasks (final (add_task w)))
  /\ ids_unique (tasks (final (edit_task w)))
  /\ ids_unique (tasks (final (mark_complete w)))
  /\ ids_unique (tasks (final (delete_task w))).
Proof.
  destruct w as [l inp clk evs]. cbn [tasks]. intros Hu.
  assert (forall f ref l0, (forall t, id (f t) = id t) -> ids_unique l0 ->
                           ids_unique (update_at ref f l0)) as Hupd.
  { intros f ref l0 Hf H0. unfold ids_unique.
    now rewrite map_id_update_at. }
  split; [| split; [| split]].
  - run_cases; try assumption.
    apply append_unique; [assumption |]. intros t0. cbn [id].
    apply generate_id_greater.
  - run_cases; try assumption;
      repeat (apply Hupd; [reflexivity |]); assumption.
  - run_cases; try assumption; apply Hupd; solve [reflexivity | assumption].
  - run_cases; try assumption; now apply list_remove_unique.
Qed.

Lemma sample_tasks_unique : ids_unique sample_tasks.
Proof.
  unfold ids_unique. cbn. repeat constructor; cbn; intuition discriminate.
Qed.

Lemma ids_stay_unique_witness :
  ids_unique (tasks (final (add_task (sample_world ["Buy milk"; ""]))))
  /\ ids_unique (tasks (final (delete_task (sample_world ["3"])))).
Proof.
  split.
  - apply (ids_stay_unique (sample_world ["Buy milk"; ""])
                           sample_tasks_unique).
  - apply (ids_stay_unique (sample_world ["3"]) sample_tasks_unique).
Defined.

Ltac give_new :=
  first [ exists (@nil Event); split; [reflexivity |]
        | eexists [_]; split; [reflexivity |]
        | eexists [_; _]; split; [reflexivity |]
        | eexists [_; _; _]; split; [reflexivity |]
        | eexists [_; _; _; _]; split; [reflexivity |]
        | eexists [_; _; _; _; _]; split; [reflexivity |]
        | eexists [_; _; _; _; _; _]; split; [reflexivity |]
        | eexists [_; _; _; _; _; _; _]; split; [reflexivity |]
        | eexists [_; _; _; _; _; _; _; _]; split; [reflexivity |]
        | eexists [_; _; _; _; _; _; _; _; _]; split; [reflexivity |] ].

Ltac settle_written :=
  give_new; cbn [saved_contents];
  split; [intros c Hc; cbn in Hc; intuition congruence |];
  split; [intros e0 w0 Hr; first [discriminate | reflexivity] |];
  intros w0 Hr;
  first [ discriminate
        | injection Hr as <-; cbn [tasks];
          first [left; reflexivity | right; reflexivity] ].

(** X10.  What an operation writes to the data file is the collection as
    the operation leaves it, never an intermediate one; an operation that
    raises writes nothing; and an operation that returns has left the
    collection as it was or has written it. *)
Theorem writes_are_current (op : M unit) (w : World) :
  mutating op ->
  exists new : list Event,
    events (final (op w)) = (new ++ events w)%list
    /\ (forall c, In c (saved_contents new) -> c = tasks (final (op w)))
    /\ (forall e w', op w = Raised e w' -> saved_contents new = [])
    /\ (forall w', op w = Ok tt w' ->
                   tasks w' = tasks w \/ saved_contents new = [tasks w']).
Proof.
  destruct w as [l inp clk evs].
  intros [-> | [-> | [-> | ->]]].
  - run_cases; settle_written.
  - run_cases; settle_written.
  - run_cases; settle_written.
  - run_cases; settle_written.
Qed.

Lemma writes_are_current_witness :
  exists new : list Event,
    events (final (mark_complete (sample_world ["3"]))) = (new ++ [])%list
    /\ (forall c, In c (saved_contents new) ->
                  c = tasks (final (mark_complete (sample_world ["3"])))).
Proof.
  destruct (writes_are_current mark_complete (sample_world ["3"]))
    as (new & He & Hc & _).
  - right. right. left. reflexivity.
  - exists new. split; assumption.
Defined.



End Persistence.

Section Listing.
Import PyStr Calendar Todo.

Lemma print_all_run (ms : list Message) (w : World) :
  print_all ms w
  = Ok tt (mkWorld (tasks w) (stdin w) (clock w)
             (rev (map Printed ms) ++ events w)%list).
Proof.
  revert w. induction ms as [| m r IH]; intros w.
  - now destruct w.
  - cbn [print_all]. unfold bind, print, log. rewrite IH.
    cbn [tasks stdin clock events map rev]. now rewrite <- app_assoc.
Qed.

(** A run of [show_tasks]. *)
Lemma show_tasks_run (filter_by : option string) (w : World) :
  show_tasks filter_by w
  = Ok tt (mkWorld (tasks w) (stdin w) (clock w)
             (listing (tasks w) filter_by (dt_date (clock w)) ++ events w)%list).
Proof.
  destruct w as [l inp clk evs].
  unfold show_tasks, listing, bind, get_tasks, datetime_now.
  cbn [tasks stdin clock events].
  destruct l as [| t r]; [reflexivity |].
  cbv beta iota. cbn [tasks stdin clock events].
  destruct (filtered (t :: r) filter_by (dt_date clk)) as [| a f];
    [reflexivity |].
  unfold print at 1, log. cbn [tasks stdin clock events].
  rewrite print_all_run. cbn [tasks stdin clock events].
  unfold print, log. cbn [tasks stdin clock events].
  rewrite map_map. cbn [app]. now rewrite <- app_assoc.
Qed.

(** X6.  [show_tasks] never raises and changes neither the collection nor
    the input: it only prints.  For an empty collection it prints that
    there are no tasks, for an empty selection that none matches, and
    otherwise a header, one line for each selected task in the order of
    the collection, and a blank line.  Without a filter, or with the
    filter all, every task is selected. *)
Theorem show_tasks_only_prints (filter_by : option string) (w : World) :
  show_tasks filter_by w
  = Ok tt (mkWorld (tasks w) (stdin w) (clock w)
             (listing (tasks w) filter_by (dt_date (clock w)) ++ events w)%list)
  /\ filtered (tasks w) None (dt_date (clock w)) = tasks w
  /\ filtered (tasks w) (Some "all") (dt_date (clock w)) = tasks w.
Proof.
  split; [apply show_tasks_run |].
  rewrite !filtered_filter. split.
  - induction (tasks w) as [| t r IH]; [reflexivity |].
    cbn [filter selected]. now rewrite IH.
  - induction (tasks w) as [| t r IH]; [reflexivity |].
    cbn [filter]. unfold selected at 1. cbn. now rewrite IH.
Qed.

(** X7.  How the filters relate, for every collection and date: each task
    is listed by exactly one of completed and incomplete; the overdue
    tasks are the incomplete tasks that are overdue; and no task is both
    due today and overdue. *)
Theorem filters_relate (l : list Task) (today : date) :
  Permutation l (filtered l (Some "completed") today
                 ++ filtered l (Some "incomplete") today)
  /\ filtered l (Some "overdue") today
     = filter (is_overdue today) (filtered l (Some "incomplete") today)
  /\ (forall t, In t (filtered l (Some "due_today") today) ->
                ~ In t (filtered l (Some "overdue") today)).
Proof.
  rewrite !filtered_filter. split; [| split].
  - induction l as [| t r IH]; [constructor |]. cbn [filter].
    rewrite selected_completed, selected_incomplete.
    unfold is_completed, is_incomplete. destruct (completed t); cbn [negb app].
    + now constructor.
    + now apply Permutation_cons_app.
  - induction l as [| t r IH]; [reflexivity |]. cbn [filter].
    rewrite selected_overdue, selected_incomplete.
    destruct (is_overdue today t) eqn:Eo.
    + assert (is_incomplete t = true) as ->.
      { unfold is_overdue, is_incomplete in *. destruct (task_due t);
          [| discriminate]. now destruct (completed t). }
      cbn [filter]. rewrite Eo. now f_equal.
    + destruct (is_incomplete t); [cbn [filter]; rewrite Eo |]; exact IH.
  - intros t Hd Ho. apply filter_In in Hd, Ho.
    destruct Hd as [_ Hd], Ho as [_ Ho].
    rewrite selected_due_today in Hd. rewrite selected_overdue in Ho.
    unfold is_due_today, is_overdue in *.
    destruct (task_due t) as [d |]; [| discriminate].
    apply andb_true_iff in Ho. destruct Ho as [_ Ho].
    apply date_ltb_not_eqb in Ho. congruence.
Qed.

Lemma filters_relate_witness :
  ~ In (Todo.mkTask 5 "Call the bank" "2025-11-13" false
                    "2025-11-03T17:40:12.250000")
       (filtered sample_tasks (Some "overdue") (day_of 2025 11 13)).
Proof.
  apply (proj2 (proj2 (filters_relate sample_tasks (day_of 2025 11 13)))).
  vm_compute. tauto.
Defined.

End Listing.

(* ------------------------------------------------------------------ *)
(** ** Further properties of the date normaliser *)

Section Engine.
Import PyStr Re.

Lemma plus_run_ext {A} (cs : charset) (s : string) (k1 k2 : string -> option A) :
  (forall s', k1 s' = k2 s') -> plus_run cs s k1 = plus_run cs s k2.
Proof.
  intros H. induction s as [| c s' IH]; cbn [plus_run]; [reflexivity |].
  now rewrite IH, H.
Qed.

Lemma run_ext {A} (r : regex) :
  forall (s : string) (g : groups) (k1 k2 : string -> groups -> option A),
    (forall s' g', k1 s' g' = k2 s' g') -> run r s g k1 = run r s g k2.
Proof.
  induction r as [| cs | cs | r1 IH1 r2 IH2 | r1 IH1 r2 IH2 | name r1 IH1];
    intros s g k1 k2 H; cbn [run].
  - apply H.
  - destruct s as [| c s']; [reflexivity |]. now rewrite H.
  - apply plus_run_ext. intros s'. apply H.
  - apply IH1. intros s' g'. now apply IH2.
  - now rewrite (IH1 s g k1 k2 H), (IH2 s g k1 k2 H).
  - apply IH1. intros s' g'. apply H.
Qed.

Lemma plus_run_map {A B} (f : A -> B) (cs : charset) (s : string)
      (k : string -> option A) :
  plus_run cs s (fun s' => option_map f (k s'))
  = option_map f (plus_run cs s k).
Proof.
  induction s as [| c s' IH]; cbn [plus_run]; [reflexivity |].
  destruct (member cs c); [| reflexivity]. rewrite IH.
  now destruct (plus_run cs s' k).
Qed.

(** What the continuation does to a result can be done after the search. *)
Lemma run_map {A B} (f : A -> B) (r : regex) :
  forall (s : string) (g : groups) (k : string -> groups -> option A),
    run r s g (fun s' g' => option_map f (k s' g'))
    = option_map f (run r s g k).
Proof.
  induction r as [| cs | cs | r1 IH1 r2 IH2 | r1 IH1 r2 IH2 | name r1 IH1];
    intros s g k; cbn [run].
  - reflexivity.
  - destruct s as [| c s']; [reflexivity |]. now destruct (member cs c).
  - apply (plus_run_map f cs s (fun s' => k s' g)).
  - rewrite <- IH1. apply run_ext. intros s' g'. apply IH2.
  - rewrite IH1, IH2. now destruct (run r1 s g k).
  - apply (IH1 s g (fun s' g' => k s' (g' ++ [(name, consumed s s')])%list)).
Qed.

(** The groups found so far only pass through the search. *)
Lemma run_groups {A} (r : regex) :
  forall (s : string) (g : groups) (k : string -> groups -> option A),
    run r s g k = run r s [] (fun s' g' => k s' (g ++ g')%list).
Proof.
  induction r as [| cs | cs | r1 IH1 r2 IH2 | r1 IH1 r2 IH2 | name r1 IH1];
    intros s g k; cbn [run].
  - now rewrite app_nil_r.
  - destruct s as [| c s']; [reflexivity |]. now rewrite app_nil_r.
  - apply plus_run_ext. intros s'. now rewrite app_nil_r.
  - rewrite IH1. apply run_ext. intros s' g'. cbn [app].
    rewrite IH2. symmetry. rewrite IH2. apply run_ext. intros s'' g''.
    now rewrite app_assoc.
  - now rewrite IH1, IH2.
  - rewrite IH1. apply run_ext. intros s' g'. cbn [app].
    now rewrite app_assoc.
Qed.

Lemma y_group_run {A} (c1 c2 c3 c4 : ascii) (rest : string) (g : groups)
      (k : string -> groups -> option A) :
  is_digit c1 = true -> is_digit c2 = true -> is_digit c3 = true ->
  is_digit c4 = true ->
  run y_group (String c1 (String c2 (String c3 (String c4 rest)))) g k
  = k rest (g ++ [("Y", String c1 (String c2 (String c3 (String c4 ""))))])%list.
Proof.
  intros H1 H2 H3 H4. unfold y_group, Strptime.digit. cbn [run member].
  rewrite H1, H2, H3, H4. unfold consumed. cbn [String.length].
  replace (S (S (S (S (String.length rest)))) - String.length rest)%nat
    with 4%nat by lia.
  now destruct rest.
Qed.

(** A search entered with groups already found. *)
Lemma re_match_after (r : regex) (s : string) (g : groups) :
  run r s g (fun rest g' => Some (rest, g'))
  = option_map (fun p => (fst p, (g ++ snd p)%list)) (re_match r s).
Proof.
  rewrite run_groups. unfold re_match. rewrite <- run_map.
  apply run_ext. reflexivity.
Qed.

End Engine.

Section Canonical.
Import PyStr Calendar Todo.

Ltac divmod := Z.div_mod_to_equations; lia.

Lemma digit_char_of_digit (c : ascii) :
  is_digit c = true ->
  digit_char (digit_val c) = c /\ 0 <= digit_val c <= 9.
Proof.
  destruct c as [[] [] [] [] [] [] [] []]; intros H; try discriminate H;
    split; try reflexivity; cbv; split; discriminate.
Qed.

Lemma is_digit_no_space (c : ascii) : is_digit c = true -> is_space c = false.
Proof.
  destruct c as [[] [] [] [] [] [] [] []]; intros H; try discriminate H;
    reflexivity.
Qed.

(** A text in the canonical form is what [date.isoformat] writes for the
    date it names. *)
Lemma canonical_is_isoformat (s : string) :
  canonical s = true -> exists d, valid_date d /\ s = date_isoformat d.
Proof.
  destruct s as [| y1 [| y2 [| y3 [| y4 [| s1 [| m1 [| m2 [| s2 [| d1 [| d2
    [| ? ?]]]]]]]]]]]; try discriminate.
  cbn [canonical all_digits digits_val].
  rewrite ?andb_true_r, !andb_true_iff.
  intros [[[[[(Y1 & Y2 & Y3 & Y4) [M1 M2]] [D1 D2]] S1] S2] V].
  apply Ascii.eqb_eq in S1, S2. subst s1 s2.
  destruct (digit_char_of_digit _ Y1) as [Ey1 By1].
  destruct (digit_char_of_digit _ Y2) as [Ey2 By2].
  destruct (digit_char_of_digit _ Y3) as [Ey3 By3].
  destruct (digit_char_of_digit _ Y4) as [Ey4 By4].
  destruct (digit_char_of_digit _ M1) as [Em1 Bm1].
  destruct (digit_char_of_digit _ M2) as [Em2 Bm2].
  destruct (digit_char_of_digit _ D1) as [Ed1 Bd1].
  destruct (digit_char_of_digit _ D2) as [Ed2 Bd2].
  set (y := 10 * (10 * (10 * (10 * 0 + digit_val y1) + digit_val y2)
                  + digit_val y3) + digit_val y4) in *.
  set (m := 10 * (10 * 0 + digit_val m1) + digit_val m2) in *.
  set (d := 10 * (10 * 0 + digit_val d1) + digit_val d2) in *.
  exists (mkDate y m d). split; [exact V |].
  rewrite date_isoformat_digits by exact V.
  unfold four_digits, two_digits. cbn [year month day append].
  replace (y / 1000) with (digit_val y1) by (subst y; divmod).
  replace (y / 100 mod 10) with (digit_val y2) by (subst y; divmod).
  replace (y / 10 mod 10) with (digit_val y3) by (subst y; divmod).
  replace (y mod 10) with (digit_val y4) by (subst y; divmod).
  replace (m / 10) with (digit_val m1) by (subst m; divmod).
  replace (m mod 10) with (digit_val m2) by (subst m; divmod).
  replace (d / 10) with (digit_val d1) by (subst d; divmod).
  replace (d mod 10) with (digit_val d2) by (subst d; divmod).
  now rewrite Ey1, Ey2, Ey3, Ey4, Em1, Em2, Ed1, Ed2.
Qed.

(** X12.  A due date in the canonical form is always read back by the
    filters of [show_tasks] as the date it spells: under the invariant of
    the store the [except] branches of the two date filters are never
    taken. *)
Theorem canonical_due_dates_are_read (l : list Task) :
  due_dates_canonical l ->
  forall t, In t l ->
    due_date t = ""
    \/ exists d, valid_date d /\ due_date t = date_isoformat d
                 /\ due_day t = Some d /\ task_due t = Some d.
Proof.
  intros Hinv t Hin.
  destruct (proj1 (Forall_forall _ _) Hinv t Hin) as [E | E]; [now left |].
  right. destruct (canonical_is_isoformat _ E) as (d & Hd & Ed).
  exists d. split; [exact Hd |]. split; [exact Ed |].
  split; [| now apply task_due_isoformat].
  unfold due_day. now rewrite Ed, fromisoformat_isoformat.
Qed.

Lemma canonical_due_dates_are_read_witness :
  exists d, valid_date d /\ "2025-11-13" = date_isoformat d
            /\ due_day (mkTask 5 "Call the bank" "2025-11-13" false
                               "2025-11-03T17:40:12.250000") = Some d.
Proof.
  destruct (canonical_due_dates_are_read sample_tasks sample_tasks_canonical
              (mkTask 5 "Call the bank" "2025-11-13" false
                      "2025-11-03T17:40:12.250000"))
    as [E | (d & Hd & Ed & Hday & _)].
  - cbn. tauto.
  - discriminate E.
  - exists d. repeat split; assumption.
Defined.

End Canonical.

Section FixedPoint.
Import PyStr Calendar Todo.

Ltac divmod := Z.div_mod_to_equations; lia.

Lemma compile_ymd : Strptime.compile "%Y-%m-%d" = Some (Re.Cat y_group md_regex).
Proof. vm_compute. reflexivity. Qed.

Lemma md_match (m d : Z) :
  1 <= m <= 12 -> 1 <= d <= 31 ->
  Re.re_match md_regex (String "-" (two_digits m ++ String "-" (two_digits d)))
  = Some ("", [("m", two_digits m); ("d", two_digits d)]).
Proof.
  intros Hm Hd.
  assert (In m (map Z.of_nat (seq 1 12))) as Im.
  { apply in_map_iff. exists (Z.to_nat m). split; [lia |]. apply in_seq. lia. }
  assert (In d (map Z.of_nat (seq 1 31))) as Id.
  { apply in_map_iff. exists (Z.to_nat d). split; [lia |]. apply in_seq. lia. }
  clear Hm Hd. cbn in Im, Id.
  repeat (destruct Im as [<- | Im];
          [repeat (destruct Id as [<- | Id]; [vm_compute; reflexivity |]);
           contradiction |]).
  contradiction.
Qed.

Lemma int_four_digits_all :
  forallb (fun y => match PyStr.int (four_digits y) with
                    | Some v => v =? y
                    | None => false
                    end) (upto 10000) = true.
Proof. vm_compute. reflexivity. Qed.

Lemma int_two_digits_all :
  forallb (fun m => match PyStr.int (two_digits m) with
                    | Some v => v =? m
                    | None => false
                    end) (upto 100) = true.
Proof. vm_compute. reflexivity. Qed.

Lemma int_four_digits (y : Z) :
  0 <= y <= 9999 -> PyStr.int (four_digits y) = Some y.
Proof.
  intros H.
  pose proof (proj1 (forallb_forall _ _) int_four_digits_all y
                    (upto_In 10000 y ltac:(lia))) as E.
  cbv beta in E. destruct (PyStr.int (four_digits y)); [| discriminate].
  apply Z.eqb_eq in E. now subst.
Qed.

Lemma int_two_digits (m : Z) :
  0 <= m <= 99 -> PyStr.int (two_digits m) = Some m.
Proof.
  intros H.
  pose proof (proj1 (forallb_forall _ _) int_two_digits_all m
                    (upto_In 100 m ltac:(lia))) as E.
  cbv beta in E. destruct (PyStr.int (two_digits m)); [| discriminate].
  apply Z.eqb_eq in E. now subst.
Qed.

(** [strptime] with the first format reads what [date.isoformat] wrote. *)
Lemma strptime_isoformat (d : date) :
  valid_date d ->
  Strptime.strptime (date_isoformat d) "%Y-%m-%d"
  = Some (mkDatetime d 0 0 0 0).
Proof.
  intros H. rewrite date_isoformat_digits by assumption.
  pose proof (check_date_fields_bounds _ _ _ H) as (Hy & Hm & Hd).
  destruct d as [y m dd]; cbn [year month day] in *.
  assert (0 <= y / 1000 <= 9) by divmod.
  assert (0 <= y / 100 mod 10 <= 9) by divmod.
  assert (0 <= y / 10 mod 10 <= 9) by divmod.
  assert (0 <= y mod 10 <= 9) by divmod.
  unfold Strptime.strptime. rewrite compile_ymd.
  unfold Re.re_match at 1. cbn [Re.run].
  pose proof (int_four_digits y ltac:(lia)) as Iy.
  unfold four_digits in *. cbn [append].
  rewrite y_group_run by now apply is_digit_digit_char.
  cbn [app]. rewrite re_match_after.
  change (String "-"
            (String (digit_char (m / 10))
               (String (digit_char (m mod 10))
                  (String "-"
                     (String (digit_char (dd / 10))
                        (String (digit_char (dd mod 10)) ""))))))
    with (String "-" (two_digits m ++ String "-" (two_digits dd))).
  rewrite md_match by lia.
  cbn [option_map fst snd app is_empty negb fold_left].
  unfold Strptime.read_group at 3. cbn [String.eqb Ascii.eqb Bool.eqb].
  rewrite Iy. cbn [option_map].
  unfold Strptime.read_group at 2. cbn [String.eqb Ascii.eqb Bool.eqb].
  rewrite int_two_digits by lia. cbn [option_map].
  unfold Strptime.read_group. cbn [String.eqb Ascii.eqb Bool.eqb].
  rewrite int_two_digits by lia. cbn [option_map].
  unfold datetime_new. unfold valid_date in H. cbn [year month day] in H.
  now rewrite H.
Qed.

Lemma rstrip_no_space (s : string) : no_space s = true -> rstrip s = s.
Proof.
  induction s as [| c s' IH]; [reflexivity |]. cbn [no_space rstrip].
  intros H. apply andb_true_iff in H. destruct H as [Hc Hs].
  rewrite (IH Hs). apply negb_true_iff in Hc. rewrite Hc.
  now destruct s'.
Qed.

Lemma strip_no_space (s : string) : no_space s = true -> strip s = s.
Proof.
  intros H. unfold strip.
  assert (lstrip s = s) as ->.
  { destruct s as [| c s']; [reflexivity |]. cbn in *.
    apply andb_true_iff in H. destruct H as [Hc _].
    apply negb_true_iff in Hc. now rewrite Hc. }
  now apply rstrip_no_space.
Qed.

Lemma isoformat_no_space (d : date) :
  valid_date d -> no_space (date_isoformat d) = true.
Proof.
  intros H. rewrite date_isoformat_digits by assumption.
  pose proof (check_date_fields_bounds _ _ _ H) as (Hy & Hm & Hd).
  unfold four_digits, two_digits. cbn [append no_space].
  rewrite !(is_digit_no_space (digit_char _))
    by (apply is_digit_digit_char; divmod).
  reflexivity.
Qed.

Lemma rstrip_head (c : ascii) (s : string) :
  is_space c = false -> exists r, rstrip (String c s) = String c r.
Proof.
  intros H. cbn [rstrip]. rewrite H.
  destruct (rstrip s); eexists; reflexivity.
Qed.

Lemma rstrip_cons (c : ascii) (s : string) :
  rstrip (String c s)
  = match rstrip s with
    | "" => if is_space c then "" else String c ""
    | r => String c r
    end.
Proof. reflexivity. Qed.

Lemma rstrip_idempotent (s : string) : rstrip (rstrip s) = rstrip s.
Proof.
  induction s as [| c s' IH]; [reflexivity |]. rewrite rstrip_cons.
  destruct (rstrip s') as [| c' r] eqn:E.
  - destruct (is_space c) eqn:Ec; [reflexivity |]. cbn [rstrip]. now rewrite Ec.
  - rewrite rstrip_cons, IH. reflexivity.
Qed.

Lemma lstrip_head (s : string) :
  lstrip s = "" \/ exists c r, lstrip s = String c r /\ is_space c = false.
Proof.
  induction s as [| c s' IH]; [now left |]. cbn [lstrip].
  destruct (is_space c) eqn:Ec; [exact IH |]. right. now exists c, s'.
Qed.

Lemma strip_idempotent (s : string) : strip (strip s) = strip s.
Proof.
  unfold strip. destruct (lstrip_head s) as [-> | (c & r & -> & Hc)];
    [reflexivity |].
  destruct (rstrip_head c r Hc) as [r' E]. rewrite E.
  cbn [lstrip]. rewrite Hc, <- E. apply rstrip_idempotent.
Qed.

(** X8.  The date normaliser returns its own results unchanged: a date in
    the canonical form comes back as it is, and normalising twice gives
    what normalising once gives. *)
Theorem parse_date_idempotent :
  (forall s, canonical s = true -> parse_date s = s)
  /\ (forall s, parse_date (parse_date s) = parse_date s).
Proof.
  assert (forall d, valid_date d ->
                    parse_date (date_isoformat d) = date_isoformat d) as Hiso.
  { intros d Hd. unfold parse_date.
    rewrite isoformat_not_empty by assumption.
    rewrite strip_no_space by now apply isoformat_no_space.
    unfold formats. cbn [try_formats].
    now rewrite strptime_isoformat. }
  split.
  - intros s Hs. destruct (canonical_is_isoformat s Hs) as (d & Hd & ->).
    now apply Hiso.
  - intros s. destruct (parse_date_result s) as [-> | (d & Hd & ->)];
      [reflexivity | now apply Hiso].
Qed.

Lemma parse_date_idempotent_witness : parse_date "2024-02-29" = "2024-02-29".
Proof. apply (proj1 parse_date_idempotent). vm_compute. reflexivity. Defined.

(** X9.  White space around the text does not change what the date
    normaliser returns: [add_task], which passes the line as typed, and
    [edit_task], which trims it first, normalise alike. *)
Theorem parse_date_ignores_margins (s : string) :
  parse_date (strip s) = parse_date s.
Proof.
  unfold parse_date. rewrite strip_idempotent.
  destruct (is_empty s) eqn:Es.
  - apply is_empty_true in Es. now subst s.
  - destruct (is_empty (strip s)) eqn:E; [| reflexivity].
    apply is_empty_true in E. rewrite E. vm_compute. reflexivity.
Qed.

End FixedPoint.

(* ------------------------------------------------------------------ *)
(** ** Properties of the menu loop *)

Section Sessions.
Import PyStr Calendar Todo Menu.

Ltac split_innermost x :=
  lazymatch x with
  | context [match ?y with _ => _ end] => split_innermost y
  | _ => destruct x eqn:?
  end.

Ltac run_cases :=
  unfold add_task, edit_task, mark_complete, delete_task, show_tasks,
    assign, bind, input, get_tasks, set_tasks, datetime_now, print,
    save_tasks, ret, log, final;
  cbn [tasks stdin clock events];
  repeat match goal with
         | |- context [match ?x with _ => _ end] =>
             split_innermost x; cbn [tasks stdin clock events]
         end.

Lemma operation_on_menu (choice : string) (op : M unit) :
  operation choice = Some op -> on_menu op.
Proof.
  unfold operation, on_menu, mutating.
  repeat match goal with
         | |- context [if ?b then _ else _] => destruct b
         end;
    intros [= <-]; eauto 10.
Qed.

(** An operation reads lines from the front of the input, and raises only
    when the input is used up. *)
Lemma op_reads_input (op : M unit) (w : World) :
  on_menu op ->
  (List.length (stdin (final (op w))) <= List.length (stdin w))%nat
  /\ (forall e w', op w = Raised e w' -> stdin w' = []).
Proof.
  intros [[f ->] | [-> | [-> | [-> | ->]]]].
  - rewrite show_tasks_run. cbn [final stdin]. split; [lia | discriminate].
  - destruct w as [l inp clk evs].
    run_cases; (split; [cbn [List.length]; lia |]); intros e0 w0 Hr;
      first [discriminate | now injection Hr as <- <-].
  - destruct w as [l inp clk evs].
    run_cases; (split; [cbn [List.length]; lia |]); intros e0 w0 Hr;
      first [discriminate | now injection Hr as <- <-].
  - destruct w as [l inp clk evs].
    run_cases; (split; [cbn [List.length]; lia |]); intros e0 w0 Hr;
      first [discriminate | now injection Hr as <- <-].
  - destruct w as [l inp clk evs].
    run_cases; (split; [cbn [List.length]; lia |]); intros e0 w0 Hr;
      first [discriminate | now injection Hr as <- <-].
Qed.

(** X13.  The menu loop ends on every finite input: with more turns
    allowed than lines are left it returns, and the outcome does not depend
    on how many more.  It ends after the farewell, or with an exception
    when the input is used up. *)
Theorem main_loop_ends (fuel : nat) :
  forall s : Session,
    (List.length (stdin (world s)) < fuel)%nat ->
    exists o : Outcome,
      main_loop fuel s = Some o
      /\ (forall fuel', (List.length (stdin (world s)) < fuel')%nat ->
                        main_loop fuel' s = Some o)
      /\ match o with
         | Exited s' => exists k, hd_error (shown s') = Some (k, Goodbye)
         | Crashed _ s' => stdin (world s') = []
         end.
Proof.
  induction fuel as [| f IH]; intros s Hlen; [lia |].
  cbn [main_loop show world shown].
  destruct (stdin (world s)) as [| line rest] eqn:Ein.
  - eexists. split; [reflexivity |]. split; [| exact Ein].
    intros [| f'] H'; [cbn in H'; lia |].
    cbn [main_loop show world shown]. now rewrite Ein.
  - cbn [List.length] in Hlen.
    set (w1 := mkWorld (tasks (world s)) rest (clock (world s))
                       (events (world s))).
    destruct (operation (strip line)) as [op |] eqn:Eop.
    + pose proof (op_reads_input op w1 (operation_on_menu _ _ Eop))
        as [Hle Hraise].
      destruct (op w1) as [[] w' | e w'] eqn:Er; cbn [final] in Hle.
      * cbn [w1 stdin] in Hle.
        destruct (IH (mkSession w' ((List.length (events (world s)),
                                     AskedChoice)
                                    :: (List.length (events (world s)),
                                        MenuText) :: shown s)))
          as (o & Ho & Hany & Hend); [cbn [world]; lia |].
        exists o. split; [exact Ho |]. split; [| exact Hend].
        intros [| f'] H'; [lia |].
        cbn [main_loop show world shown]. rewrite Ein.
        fold w1. rewrite Eop, Er. apply Hany. cbn [world].
        cbn [List.length] in H'. lia.
      * eexists. split; [reflexivity |]. split.
        -- intros [| f'] H'; [lia |].
           cbn [main_loop show world shown]. rewrite Ein.
           fold w1. now rewrite Eop, Er.
        -- cbn [world]. now apply (Hraise e w').
    + destruct (strip line =? "0")%string eqn:E0.
      * eexists. split; [reflexivity |]. split.
        -- intros [| f'] H'; [lia |].
           cbn [main_loop show world shown]. rewrite Ein.
           fold w1. now rewrite Eop, E0.
        -- cbn [show shown]. eexists. reflexivity.
      * destruct (IH (show InvalidChoice
                        (mkSession w1 ((List.length (events (world s)),
                                        AskedChoice)
                                       :: (List.length (events (world s)),
                                           MenuText) :: shown s))))
          as (o & Ho & Hany & Hend); [cbn [show world w1 stdin]; lia |].
        exists o. split; [exact Ho |]. split; [| exact Hend].
        intros [| f'] H'; [lia |].
        cbn [main_loop show world shown]. rewrite Ein.
        fold w1. rewrite Eop, E0. apply Hany.
        cbn [show world w1 stdin]. cbn [List.length] in H'. lia.
Qed.

Lemma main_loop_ends_witness :
  exists o : Outcome,
    main_loop 4 (mkSession (sample_world ["5"; "9"; "3"]) []) = Some o
    /\ match o with
       | Exited s' => exists k, hd_error (shown s') = Some (k, Goodbye)
       | Crashed _ s' => stdin (world s') = []
       end.
Proof.
  destruct (main_loop_ends 4 (mkSession (sample_world ["5"; "9"; "3"]) []))
    as (o & Ho & _ & He).
  - cbn. lia.
  - exists o. split; assumption.
Defined.

Lemma store_ok_update_at (f : Task -> Task) (ref : nat) (l : list Task) :
  (forall t, id (f t) = id t) ->
  (forall t, due_date (f t) = due_date t \/ due_date (f t) = ""
             \/ canonical (due_date (f t)) = true) ->
  store_ok l -> store_ok (update_at ref f l).
Proof.
  intros Hid Hdue [Hc Hu]. split.
  - now apply canonical_update_at.
  - unfold ids_unique. now rewrite map_id_update_at.
Qed.

Lemma saved_lines (l : list Task) : forall evs,
  saved_contents (rev (map (fun t => Printed (task_line t)) l) ++ evs)
  = saved_contents evs.
Proof.
  induction l as [| t r IH]; intros evs; [reflexivity |].
  cbn [map rev]. rewrite <- app_assoc. now rewrite IH.
Qed.

(** Listing writes nothing to the data file. *)
Lemma saved_listing (l : list Task) (f : option string) (now : date)
      (evs : list Event) :
  saved_contents (listing l f now ++ evs) = saved_contents evs.
Proof.
  unfold listing. destruct l; [reflexivity |].
  destruct (filtered _ _ _) as [| a r]; [reflexivity |].
  cbn [app saved_contents]. rewrite <- app_assoc. now rewrite saved_lines.
Qed.

Ltac settle_store :=
  split;
  [ first [ assumption
          | apply store_ok_update_at; [reflexivity | cbn; auto | assumption] ]
  | intros c Hc; cbn [saved_contents In] in Hc; intuition ].

(** An operation of the menu keeps the invariant of the store, and what it
    writes to the data file is the collection it leaves. *)
Lemma op_keeps_store (op : M unit) (w : World) :
  on_menu op -> store_ok (tasks w) ->
  store_ok (tasks (final (op w)))
  /\ forall c, In c (saved_contents (events (final (op w)))) ->
               In c (saved_contents (events w)) \/ c = tasks (final (op w)).
Proof.
  intros [[f ->] | [-> | [-> | [-> | ->]]]] Hok.
  - rewrite show_tasks_run. cbn [final tasks events]. split; [exact Hok |].
    intros c Hc. left.
    pose proof (saved_listing (tasks w) f (dt_date (clock w))) as Hl.
    now rewrite Hl in Hc.
  - destruct w as [l inp clk evs]. cbn [tasks] in Hok.
    run_cases; try settle_store.
    split.
    + destruct Hok as [Hc Hu]. split.
      * apply canonical_append; [assumption | apply parse_date_canonical].
      * apply append_unique; [assumption |]. intros t0. cbn [id].
        apply generate_id_greater.
    + intros c Hc; cbn [saved_contents In] in Hc; intuition.
  - destruct w as [l inp clk evs]. cbn [tasks] in Hok.
    pose proof parse_date_canonical as Hparse.
    run_cases; try settle_store;
      (split; [| intros c Hc; cbn [saved_contents In] in Hc; intuition]);
      repeat (apply store_ok_update_at; [reflexivity | cbn; auto |]);
      assumption.
  - destruct w as [l inp clk evs]. cbn [tasks] in Hok.
    run_cases; settle_store.
  - destruct w as [l inp clk evs]. cbn [tasks] in Hok.
    run_cases; try settle_store.
    all: split; [| intros c Hc; cbn [saved_contents In] in Hc; intuition].
    all: destruct Hok as [Hc Hu]; split;
      [now apply Forall_list_remove | now apply list_remove_unique].
Qed.

(** X14.  Through a whole session of the menu the invariant of the store
    holds: when the collection it starts with has due dates that are empty
    or canonical and ids that are distinct, so has the collection it ends
    with, and so has every content written to the data file on the way. *)
Theorem session_keeps_store (fuel : nat) :
  forall (s : Session) (o : Outcome),
    store_ok (tasks (world s)) ->
    Forall store_ok (saved_contents (events (world s))) ->
    main_loop fuel s = Some o ->
    store_ok (tasks (world (session_of o)))
    /\ Forall store_ok (saved_contents (events (world (session_of o)))).
Proof.
  induction fuel as [| f IH]; intros s o Hok Hsaved; [discriminate |].
  cbn [main_loop show world shown].
  destruct (stdin (world s)) as [| line rest] eqn:Ein.
  - intros [= <-]. cbn [session_of world]. now split.
  - set (w1 := mkWorld (tasks (world s)) rest (clock (world s))
                       (events (world s))).
    destruct (operation (strip line)) as [op |] eqn:Eop.
    + destruct (op_keeps_store op w1 (operation_on_menu _ _ Eop) Hok)
        as [Hok' Hnew].
      assert (Forall store_ok (saved_contents (events (final (op w1)))))
        as Hsaved'.
      { apply Forall_forall. intros c Hc. destruct (Hnew c Hc) as [Hold | ->].
        - now apply (proj1 (Forall_forall _ _) Hsaved).
        - exact Hok'. }
      destruct (op w1) as [[] w' | e w']; cbn [final] in *.
      * apply IH; assumption.
      * intros [= <-]. cbn [session_of world]. now split.
    + destruct (strip line =? "0")%string.
      * intros [= <-]. cbn [session_of show world]. now split.
      * apply IH; assumption.
Qed.

Lemma session_keeps_store_witness :
  exists o : Outcome,
    main 9
         (sample_world ["6"; "Buy milk"; "12 Nov 2025"; "8"; "1"; "9"; "3";
                        "0"])
    = Some o
    /\ store_ok (tasks (world (session_of o)))
    /\ Forall store_ok (saved_contents (events (world (session_of o)))).
Proof.
  eexists. split; [vm_compute; reflexivity |].
  apply (session_keeps_store
           9 (show Banner
                (mkSession
                   (sample_world ["6"; "Buy milk"; "12 Nov 2025"; "8"; "1";
                                  "9"; "3"; "0"]) []))).
  - split; [exact sample_tasks_canonical | exact sample_tasks_unique].
  - constructor.
  - vm_compute. reflexivity.
Defined.

End Sessions.

Section Splits.
Import PyStr Re.

Lemma first_some_ext_in {A B} (f h : A -> option B) (l : list A) :
  (forall a, In a l -> f a = h a) -> first_some f l = first_some h l.
Proof.
  induction l as [| a r IH]; intros H; cbn [first_some]; [reflexivity |].
  rewrite (H a (or_introl eq_refl)), IH; [reflexivity |].
  intros b Hb. apply H. now right.
Qed.

Lemma first_some_app {A B} (f : A -> option B) (l1 l2 : list A) :
  first_some f (l1 ++ l2)
  = match first_some f l1 with
    | Some b => Some b
    | None => first_some f l2
    end.
Proof.
  induction l1 as [| a r IH]; cbn [app first_some]; [reflexivity |].
  destruct (f a); [reflexivity | exact IH].
Qed.

Lemma first_some_map {A B C} (f : B -> option C) (h : A -> B) (l : list A) :
  first_some f (map h l) = first_some (fun a => f (h a)) l.
Proof.
  induction l as [| a r IH]; cbn [map first_some]; [reflexivity |].
  now rewrite IH.
Qed.

Lemma first_some_flat_map {A B C} (f : B -> option C) (h : A -> list B)
      (l : list A) :
  first_some f (flat_map h l) = first_some (fun a => first_some f (h a)) l.
Proof.
  induction l as [| a r IH]; cbn [flat_map first_some]; [reflexivity |].
  rewrite first_some_app, IH. reflexivity.
Qed.

Lemma plus_splits_app (cs : charset) (s : string) :
  forall p s', In (p, s') (plus_splits cs s) -> s = p ++ s'.
Proof.
  induction s as [| c r IH]; intros p s' Hin; cbn [plus_splits] in Hin;
    [contradiction |].
  destruct (member cs c); [| contradiction].
  apply in_app_or in Hin. destruct Hin as [Hin | [[= <- <-] | []]];
    [| reflexivity].
  apply in_map_iff in Hin. destruct Hin as ([p0 s0] & [= <- <-] & Hin).
  cbn [fst snd append]. f_equal. now apply IH.
Qed.

(** What a way of matching reads and what it leaves make up the text. *)
Lemma all_splits_app (r : regex) :
  forall s p s' g, In (p, s', g) (all_splits r s) -> s = p ++ s'.
Proof.
  induction r as [| cs | cs | r1 IH1 r2 IH2 | r1 IH1 r2 IH2 | name r1 IH1];
    intros s p s' g Hin; cbn [all_splits] in Hin.
  - destruct Hin as [[= <- <- <-] | []]. reflexivity.
  - destruct s as [| c r]; [contradiction |].
    destruct (member cs c); [| contradiction].
    destruct Hin as [[= <- <- <-] | []]. reflexivity.
  - apply in_map_iff in Hin. destruct Hin as ([p0 s0] & [= <- <- <-] & Hin).
    now apply plus_splits_app with cs.
  - apply in_flat_map in Hin. destruct Hin as ([[p1 s1] g1] & H1 & Hin).
    apply in_map_iff in Hin.
    destruct Hin as ([[p2 s2] g2] & [= <- <- <-] & H2).
    cbn [fst snd] in *.
    rewrite (IH1 _ _ _ _ H1), (IH2 _ _ _ _ H2).
    clear. induction p1 as [| c p1 IH]; cbn; [reflexivity | now rewrite IH].
  - apply in_app_or in Hin. destruct Hin as [Hin | Hin]; eauto.
  - apply in_map_iff in Hin. destruct Hin as ([[p1 s1] g1] & [= <- <- <-] & H1).
    cbn [fst snd]. eauto.
Qed.

Lemma consumed_app (p s' : string) : consumed (p ++ s') s' = p.
Proof.
  unfold consumed.
  assert (forall p, String.length (p ++ s') = (String.length p + String.length s')%nat)
    as Hlen.
  { induction p0 as [| c p0 IH]; cbn; [reflexivity | now rewrite IH]. }
  rewrite Hlen.
  replace (String.length p + String.length s' - String.length s')%nat
    with (String.length p) by lia.
  induction p as [| c p IH]; cbn.
  - now destruct s'.
  - now rewrite IH.
Qed.

Lemma plus_run_first {A} (cs : charset) (s : string) (k : string -> option A) :
  plus_run cs s k = first_some (fun pr => k (snd pr)) (plus_splits cs s).
Proof.
  induction s as [| c r IH]; cbn [plus_run plus_splits first_some];
    [reflexivity |].
  destruct (member cs c); [| reflexivity].
  rewrite first_some_app, first_some_map, IH. cbn [first_some snd].
  destruct (first_some _ _); [reflexivity |]. now destruct (k r).
Qed.

(** The search of [Re.run] returns what the continuation makes of the first
    way of matching that it accepts. *)
Lemma run_first {A} (r : regex) :
  forall (s : string) (g : groups) (k : string -> groups -> option A),
    run r s g k
    = first_some (fun a : match_split => k (snd (fst a)) (g ++ snd a)%list)
                 (all_splits r s).
Proof.
  induction r as [| cs | cs | r1 IH1 r2 IH2 | r1 IH1 r2 IH2 | name r1 IH1];
    intros s g k; cbn [run all_splits].
  - cbn [first_some fst snd]. rewrite app_nil_r. now destruct (k s g).
  - destruct s as [| c r]; [reflexivity |].
    destruct (member cs c); [| reflexivity].
    cbn [first_some fst snd]. rewrite app_nil_r. now destruct (k r g).
  - rewrite plus_run_first, first_some_map. apply first_some_ext_in.
    intros [p s'] _. cbn [fst snd]. now rewrite app_nil_r.
  - rewrite IH1, first_some_flat_map. apply first_some_ext_in.
    intros [[p1 s1] g1] _. cbn [fst snd].
    rewrite IH2, first_some_map. apply first_some_ext_in.
    intros [[p2 s2] g2] _. cbn [fst snd]. now rewrite app_assoc.
  - now rewrite first_some_app, IH1, IH2.
  - rewrite IH1, first_some_map. apply first_some_ext_in.
    intros [[p1 s1] g1] Hin. cbn [fst snd].
    rewrite (all_splits_app _ _ _ _ _ Hin), consumed_app.
    now rewrite app_assoc.
Qed.

End Splits.

Section DayFirst.
Import PyStr Calendar Todo.

Ltac divmod := Z.div_mod_to_equations; lia.

Lemma between_In (lo n : nat) (z : Z) :
  Z.of_nat lo <= z < Z.of_nat lo + Z.of_nat n ->
  In z (map Z.of_nat (seq lo n)).
Proof.
  intros H. apply in_map_iff. exists (Z.to_nat z). split; [lia |].
  apply in_seq. lia.
Qed.

Ltac each_case H tac :=
  cbn in H; repeat (destruct H as [<- | H]; [tac |]); try contradiction.

Ltac each_number n lo len tac :=
  let H := fresh "Hn" in
  assert (In n (map Z.of_nat (seq lo len))) as H
    by (apply between_In; cbn; lia);
  each_case H tac.

Lemma d_sep_splits (sep : ascii) (n : Z) (D rest : string) :
  sep = "/"%char \/ sep = "-"%char -> 1 <= n <= 31 -> In D (spellings n) ->
  all_splits (d_sep sep) (D ++ String sep rest)
  = [(D ++ String sep "", rest, [("d", D)])].
Proof.
  intros Hsep Hn HD.
  destruct Hsep as [-> | ->];
    each_number n 1%nat 31%nat
                ltac:(each_case HD ltac:(vm_compute; reflexivity)).
Qed.

Lemma m_sep_splits (sep : ascii) (n : Z) (M rest : string) :
  sep = "/"%char \/ sep = "-"%char -> 1 <= n <= 12 -> In M (spellings n) ->
  all_splits (m_sep sep) (M ++ String sep rest)
  = [(M ++ String sep "", rest, [("m", M)])].
Proof.
  intros Hsep Hn HM.
  destruct Hsep as [-> | ->];
    each_number n 1%nat 12%nat
                ltac:(each_case HM ltac:(vm_compute; reflexivity)).
Qed.

Lemma d_slash_dash (n : Z) (D rest : string) :
  1 <= n <= 31 -> In D (spellings n) ->
  all_splits (d_sep "/") (D ++ String "-" rest) = [].
Proof.
  intros Hn HD.
  each_number n 1%nat 31%nat
              ltac:(each_case HD ltac:(vm_compute; reflexivity)).
Qed.

Lemma y_group_day (sep : ascii) (n : Z) (D rest : string) :
  sep = "/"%char \/ sep = "-"%char -> 1 <= n <= 31 -> In D (spellings n) ->
  all_splits y_group (D ++ String sep rest) = [].
Proof.
  intros Hsep Hn HD.
  destruct Hsep as [-> | ->];
    each_number n 1%nat 31%nat
                ltac:(each_case HD ltac:(vm_compute; reflexivity)).
Qed.

Lemma spelling_facts (n : Z) (D : string) :
  1 <= n <= 31 -> In D (spellings n) ->
  PyStr.int D = Some n /\ no_space D = true /\ is_empty D = false.
Proof.
  intros Hn HD.
  each_number n 1%nat 31%nat
              ltac:(each_case HD ltac:(vm_compute; repeat split)).
Qed.

Lemma compile_dmy (sep : ascii) (fmt : string) :
  (sep = "/"%char /\ fmt = "%d/%m/%Y") \/ (sep = "-"%char /\ fmt = "%d-%m-%Y") ->
  Strptime.compile fmt
  = Some (Re.Cat (the_regex (Strptime.directive "d"))
            (Re.Cat (Strptime.lit sep)
               (Re.Cat (the_regex (Strptime.directive "m"))
                  (Re.Cat (Strptime.lit sep) (Re.Cat y_group Re.Eps))))).
Proof. intros [[-> ->] | [-> ->]]; vm_compute; reflexivity. Qed.

Lemma no_space_app (a b : string) :
  no_space (a ++ b) = no_space a && no_space b.
Proof.
  induction a as [| c a IH]; cbn; [reflexivity |].
  now rewrite IH, andb_assoc.
Qed.

Lemma four_digits_facts (y : Z) :
  0 <= y <= 9999 ->
  no_space (four_digits y) = true
  /\ exists c1 c2 c3 c4,
      four_digits y = String c1 (String c2 (String c3 (String c4 "")))
      /\ is_digit c1 = true /\ is_digit c2 = true /\ is_digit c3 = true
      /\ is_digit c4 = true.
Proof.
  intros H.
  assert (0 <= y / 1000 <= 9) by divmod.
  assert (0 <= y / 100 mod 10 <= 9) by divmod.
  assert (0 <= y / 10 mod 10 <= 9) by divmod.
  assert (0 <= y mod 10 <= 9) by divmod.
  unfold four_digits. split.
  - cbn [no_space].
    rewrite !(is_digit_no_space (digit_char _))
      by now apply is_digit_digit_char.
    reflexivity.
  - do 4 eexists. split; [reflexivity |].
    repeat split; now apply is_digit_digit_char.
Qed.

(** [strptime] reads a date written day first, with the separator of the
    format. *)
Lemma strptime_day_first (sep : ascii) (fmt : string) (d : date)
      (D M : string) :
  (sep = "/"%char /\ fmt = "%d/%m/%Y") \/ (sep = "-"%char /\ fmt = "%d-%m-%Y") ->
  valid_date d -> In D (spellings (day d)) -> In M (spellings (month d)) ->
  Strptime.strptime (D ++ String sep (M ++ String sep (four_digits (year d))))
                    fmt
  = Some (mkDatetime d 0 0 0 0).
Proof.
  intros Hfmt H HD HM.
  pose proof (check_date_fields_bounds _ _ _ H) as (Hy & Hm & Hd).
  assert (sep = "/"%char \/ sep = "-"%char) as Hsep
    by (destruct Hfmt as [[-> _] | [-> _]]; auto).
  destruct (spelling_facts _ _ Hd HD) as (ID & _ & _).
  destruct (spelling_facts (month d) M ltac:(lia) HM) as (IM & _ & _).
  pose proof (int_four_digits (year d) ltac:(lia)) as IY.
  destruct (four_digits_facts (year d) ltac:(lia))
    as (_ & c1 & c2 & c3 & c4 & EY & H1 & H2 & H3 & H4).
  rewrite EY in *.
  unfold Strptime.strptime. rewrite (compile_dmy sep fmt Hfmt).
  unfold Re.re_match.
  change (Re.run _ ?t [] ?k)
    with (Re.run (d_sep sep) t []
            (fun s1 g1 =>
               Re.run (m_sep sep) s1 g1
                 (fun s2 g2 => Re.run y_group s2 g2 k))).
  rewrite run_first, (d_sep_splits sep _ _ _ Hsep Hd HD).
  cbn [first_some fst snd app].
  rewrite run_first, (m_sep_splits sep _ _ _ Hsep Hm HM).
  cbn [first_some fst snd app].
  rewrite y_group_run by assumption.
  cbn [app is_empty negb fold_left].
  unfold Strptime.read_group at 3. cbn [String.eqb Ascii.eqb Bool.eqb].
  rewrite ID. cbn [option_map].
  unfold Strptime.read_group at 2. cbn [String.eqb Ascii.eqb Bool.eqb].
  rewrite IM. cbn [option_map].
  unfold Strptime.read_group. cbn [String.eqb Ascii.eqb Bool.eqb].
  rewrite IY. cbn [option_map].
  unfold datetime_new. unfold valid_date in H. rewrite H.
  now destruct d.
Qed.

Lemma strptime_ymd_day_first (sep : ascii) (n : Z) (D rest : string) :
  sep = "/"%char \/ sep = "-"%char -> 1 <= n <= 31 -> In D (spellings n) ->
  Strptime.strptime (D ++ String sep rest) "%Y-%m-%d" = None.
Proof.
  intros Hsep Hn HD. unfold Strptime.strptime. rewrite compile_ymd.
  unfold Re.re_match. cbn [Re.run].
  now rewrite run_first, (y_group_day sep n D rest Hsep Hn HD).
Qed.

Lemma strptime_slash_dash (n : Z) (D rest : string) :
  1 <= n <= 31 -> In D (spellings n) ->
  Strptime.strptime (D ++ String "-" rest) "%d/%m/%Y" = None.
Proof.
  intros Hn HD. unfold Strptime.strptime.
  rewrite (compile_dmy "/" "%d/%m/%Y") by (left; split; reflexivity).
  unfold Re.re_match.
  change (Re.run _ ?t [] ?k)
    with (Re.run (d_sep "/") t []
            (fun s1 g1 =>
               Re.run (m_sep "/") s1 g1
                 (fun s2 g2 => Re.run y_group s2 g2 k))).
  now rewrite run_first, (d_slash_dash n D _ Hn HD).
Qed.

(** X15.  A date typed with numbers is read day first: for every date of
    the calendar, the day, the month and the four digits of the year,
    separated by slashes or by hyphens, with the day and the month written
    with or without a leading zero, are normalised to that date. *)
Theorem parse_date_day_first (d : date) (D M : string) (sep : ascii) :
  valid_date d -> In D (spellings (day d)) -> In M (spellings (month d)) ->
  sep = "/"%char \/ sep = "-"%char ->
  parse_date (D ++ String sep (M ++ String sep (four_digits (year d))))
  = date_isoformat d.
Proof.
  intros H HD HM Hsep.
  pose proof (check_date_fields_bounds _ _ _ H) as (Hy & Hm & Hd).
  destruct (spelling_facts _ _ Hd HD) as (_ & SD & ED).
  destruct (spelling_facts (month d) M ltac:(lia) HM) as (_ & SM & _).
  destruct (four_digits_facts (year d) ltac:(lia)) as (SY & _).
  set (T := D ++ String sep (M ++ String sep (four_digits (year d)))).
  assert (is_empty T = false) as ET.
  { subst T. destruct D; [discriminate ED | reflexivity]. }
  assert (strip T = T) as ST.
  { apply strip_no_space. subst T.
    rewrite no_space_app, SD. cbn [no_space andb].
    rewrite no_space_app, SM. cbn [no_space andb]. rewrite SY.
    destruct Hsep as [-> | ->]; reflexivity. }
  unfold parse_date. rewrite ET, ST. unfold formats. cbn [try_formats].
  subst T. rewrite (strptime_ymd_day_first sep _ D _ Hsep Hd HD).
  destruct Hsep as [-> | ->].
  - rewrite (strptime_day_first "/" "%d/%m/%Y" d D M) by auto.
    reflexivity.
  - rewrite (strptime_slash_dash _ D _ Hd HD).
    rewrite (strptime_day_first "-" "%d-%m-%Y" d D M) by auto.
    reflexivity.
Qed.

Lemma parse_date_day_first_witness :
  parse_date "3/04/2025" = "2025-04-03" /\ parse_date "03-4-2025" = "2025-04-03".
Proof.
  split.
  - apply (parse_date_day_first (mkDate 2025 4 3) "3" "04" "/");
      [reflexivity | cbn; tauto | cbn; tauto | tauto].
  - apply (parse_date_day_first (mkDate 2025 4 3) "03" "4" "-");
      [reflexivity | cbn; tauto | cbn; tauto | tauto].
Defined.

End DayFirst.

Section Toggle.
Import PyStr Calendar Todo.





End Toggle.
